(** * battle_bot: the Salute Jazz client ([salute/jazz.py])

    A shallow embedding of the token cache ([SaluteJazzAPI._get_access_token]),
    room creation ([SaluteJazzAPI.create_room], [create_rooms]) and the
    transcription normaliser ([parse_transcriptions]), with the properties
    the specification states about them; and of the other room operations
    ([disable_transcription], [disable_room], [get_transcriptions]),
    [log_transcription] and [get_room_transcription], with properties read
    off the code.

    Conventions.
    - A Python [str] is a Rocq [string] holding its UTF-8 encoding; equality,
      concatenation and the replacement of the ASCII letter Z agree with
      Python's on code points.
    - [time.time()] values are IEEE binary64 numbers, as in CPython.
    - A [datetime] is its wall-clock reading in microseconds since
      0001-01-01T00:00:00, with the UTC offset of its [tzinfo] if it has one.
    - Library functions whose code is not part of the repository
      ([json.loads], [datetime.fromisoformat], [str()] of a non-string,
      [jwt.encode], [uuid.uuid4], the remote service, the file system) are
      section variables. *)

From Stdlib Require Import List String Ascii ZArith Bool Lia PrimFloat.
From Stdlib Require Import DecimalString DecimalNat.
Import ListNotations.

Local Open Scope string_scope.
Local Open Scope Z_scope.

Set Implicit Arguments.

(* ================================================================== *)
(** * Python exceptions and results *)

Inductive exn : Type :=
| KeyError (key : string)
| TypeError
| AttributeError
| ValueError
| OverflowError
| External (cls : string).

(** The class name of an exception, as [type(e).__name__] gives it.
    [External] stands for whatever a library or the operating system raised
    (an [aiohttp.ClientError], a [json.JSONDecodeError], an [OSError]). *)
Definition exn_class (e : exn) : string :=
  match e with
  | KeyError _ => "KeyError"
  | TypeError => "TypeError"
  | AttributeError => "AttributeError"
  | ValueError => "ValueError"
  | OverflowError => "OverflowError"
  | External cls => cls
  end.

Inductive result (A : Type) : Type :=
| Ok (a : A)
| Raise (e : exn).

Arguments Ok {A} a.
Arguments Raise {A} e.

Definition rbind {A B : Type} (r : result A) (k : A -> result B) : result B :=
  match r with
  | Ok a => k a
  | Raise e => Raise e
  end.

Definition rmap {A B : Type} (f : A -> B) (r : result A) : result B :=
  rbind r (fun a => Ok (f a)).

Declare Scope result_scope.
Delimit Scope result_scope with result.
Notation "'let?' x ':=' r 'in' k" := (rbind r (fun x => k))
  (at level 10, x name, r at level 100, k at level 200) : result_scope.
Notation "'let?' ( x , y ) ':=' r 'in' k" :=
  (rbind r (fun xy => let (x, y) := xy in k))
  (at level 10, x name, y name, r at level 100, k at level 200)
  : result_scope.
Local Open Scope result_scope.

(* ================================================================== *)
(** * Python values, as [json.loads] builds them *)

#[warnings="-register-all"]
Inductive value : Type :=
| PyNone
| PyBool (b : bool)
| PyInt (z : Z)
| PyFloat (f : float)
| PyStr (s : string)
| PyList (items : list value)
| PyDict (fields : list (string * value)).

(** A [dict] with [str] keys, in insertion order. *)
Definition dict : Type := list (string * value).

Fixpoint dict_get (k : string) (d : dict) : option value :=
  match d with
  | [] => None
  | (k', v) :: rest => if String.eqb k k' then Some v else dict_get k rest
  end.

(** [d[k] = v]: an existing key keeps its place, a new one goes last. *)
Fixpoint dict_set (k : string) (v : value) (d : dict) : dict :=
  match d with
  | [] => [(k, v)]
  | (k', v') :: rest =>
      if String.eqb k k' then (k, v) :: rest else (k', v') :: dict_set k v rest
  end.

(** Truth value of an object in a condition ([if x], [x and y]). *)
Definition py_truthy (v : value) : bool :=
  match v with
  | PyNone => false
  | PyBool b => b
  | PyInt z => negb (z =? 0)
  | PyFloat f => negb (PrimFloat.eqb f 0%float)
  | PyStr s => negb (String.eqb s EmptyString)
  | PyList items => match items with [] => false | _ => true end
  | PyDict fields => match fields with [] => false | _ => true end
  end.

(** [v.get(k, default)]: only a [dict] has the method. *)
Definition py_get (v : value) (k : string) (default : value) : result value :=
  match v with
  | PyDict d => Ok (match dict_get k d with Some x => x | None => default end)
  | _ => Raise AttributeError
  end.

(** [v[k]] with a [str] subscript. *)
Definition py_getitem (v : value) (k : string) : result value :=
  match v with
  | PyDict d =>
      match dict_get k d with
      | Some x => Ok x
      | None => Raise (KeyError k)
      end
  | _ => Raise TypeError
  end.

(** The items a [for] loop over [v] visits.  A [dict] yields its keys and a
    [str] its characters, all of them [str] objects (here one per byte of the
    encoding: only their number for a non-ASCII string differs from
    Python's, and no caller below looks at more than the first). *)
Definition py_iter (v : value) : result (list value) :=
  match v with
  | PyList items => Ok items
  | PyDict fields => Ok (map (fun kv => PyStr (fst kv)) fields)
  | PyStr s => Ok (map (fun c => PyStr (String c EmptyString)) (list_ascii_of_string s))
  | _ => Raise TypeError
  end.

(** [x in names] for a list of [str]: equality with one of its members. *)
Definition py_in (x : value) (names : list string) : bool :=
  match x with
  | PyStr s => existsb (String.eqb s) names
  | _ => false
  end.

(** [s.replace('Z', '+00:00')]. *)
Fixpoint replace_Z (s : string) : string :=
  match s with
  | EmptyString => EmptyString
  | String c rest =>
      if Ascii.eqb c "Z"%char then "+00:00" ++ replace_Z rest
      else String c (replace_Z rest)
  end.

(** [v.replace('Z', '+00:00')]: only a [str] has the method. *)
Definition py_replace_Z (v : value) : result string :=
  match v with
  | PyStr s => Ok (replace_Z s)
  | _ => Raise AttributeError
  end.

(* ================================================================== *)
(** * [datetime] *)

Record datetime : Type := mkDatetime {
  civil : Z;               (* wall clock, microseconds since 0001-01-01 *)
  tzoffset : option Z      (* [utcoffset()] in microseconds; [None]: naive *)
}.

Definition hour_us : Z := 3600 * 1000000.

(** [datetime.timezone(datetime.timedelta(hours=3))]. *)
Definition msk_timezone : Z := 3 * hour_us.

(** [datetime.max] is 9999-12-31T23:59:59.999999, the last microsecond of
    day 3652059. *)
Definition datetime_max : Z := 3652059 * 24 * hour_us - 1.

Definition in_datetime_range (c : Z) : bool :=
  (0 <=? c) && (c <=? datetime_max).

(** [dt.replace(tzinfo=msk_timezone)] when [dt.tzinfo is None], else [dt]. *)
Definition assume_msk (dt : datetime) : datetime :=
  match tzoffset dt with
  | None => mkDatetime (civil dt) (Some msk_timezone)
  | Some _ => dt
  end.

(** [dt.astimezone(datetime.timezone.utc)] for an aware [dt]: the offset is
    subtracted, which raises [OverflowError] outside the years 1..9999. *)
Definition astimezone_utc (dt : datetime) (off : Z) : result datetime :=
  let c := civil dt - off in
  if in_datetime_range c then Ok (mkDatetime c (Some 0))
  else Raise OverflowError.

(** The instant of an aware datetime. *)
Definition utc_instant (dt : datetime) (off : Z) : Z := civil dt - off.

(** [a < b]: by instant when both are aware, by wall clock when both are
    naive, [TypeError] for one of each. *)
Definition dt_lt (a b : datetime) : result bool :=
  match tzoffset a, tzoffset b with
  | Some oa, Some ob => Ok (utc_instant a oa <? utc_instant b ob)
  | None, None => Ok (civil a <? civil b)
  | _, _ => Raise TypeError
  end.

Definition dt_gt (a b : datetime) : result bool := dt_lt b a.

(* ================================================================== *)
(** * [parse_transcriptions] *)

(** The arguments of one [log_transcription] call. *)
Record log_call : Type := mkLogCall {
  log_room_id : value;
  log_raw : string;
  log_parsed : string
}.

Definition newline : string := String (ascii_of_nat 10) EmptyString.

(** [placeholder] is the default of [entry.get('participantName', ...)]. *)
Definition placeholder : string := "Неизвестный".

Section Normaliser.

(** [json.loads]. *)
Variable json_loads : string -> result value.
(** [datetime.datetime.fromisoformat]; [None] is its [ValueError]. *)
Variable fromisoformat : string -> option datetime.
(** [str(v)] for a [v] that is not a [str]. *)
Variable py_str : value -> string.

(** What an f-string field [{v}] renders. *)
Definition fmt (v : value) : string :=
  match v with
  | PyStr s => s
  | _ => py_str v
  end.

(** Lines 207-214 and 216-223: one window bound.  Gives the rebound
    variable and its UTC value. *)
Definition bound_to_utc (bound : option datetime)
  : result (option datetime * option datetime) :=
  match bound with
  | Some b =>
      let b' := assume_msk b in
      match tzoffset b' with
      | Some off =>
          let? u := astimezone_utc b' off in Ok (Some b', Some u)
      | None => Raise TypeError  (* not reached: [assume_msk] sets it *)
      end
  | None => Ok (None, None)
  end.

Definition is_some {A : Type} (o : option A) : bool :=
  match o with Some _ => true | None => false end.

(** The first loop, lines 194-231.  [start_time] and [end_time] are the
    local variables the loop rebinds. *)
Fixpoint filter_loop (known_names : list string)
    (start_time end_time : option datetime)
    (ts : list value) (filtered : list value) : result (list value) :=
  match ts with
  | [] => Ok filtered
  | t :: rest =>
      let? name := py_get t "participantName" PyNone in
      if negb (py_in name known_names) then
        filter_loop known_names start_time end_time rest filtered
      else if is_some start_time || is_some end_time then
        let? raw := py_getitem t "createdAt" in
        let? iso := py_replace_Z raw in
        let? created_at_utc :=
          match fromisoformat iso with
          | Some d => Ok d
          | None => Raise ValueError
          end in
        let? (start_time', start_time_utc) := bound_to_utc start_time in
        let? (end_time', end_time_utc) := bound_to_utc end_time in
        let? too_early :=
          match start_time_utc with
          | Some su => dt_lt created_at_utc su
          | None => Ok false
          end in
        if too_early then
          filter_loop known_names start_time' end_time' rest filtered
        else
          let? too_late :=
            match end_time_utc with
            | Some eu => dt_gt created_at_utc eu
            | None => Ok false
            end in
          if too_late then
            filter_loop known_names start_time' end_time' rest filtered
          else
            filter_loop known_names start_time' end_time' rest
              (filtered ++ [t])
      else
        filter_loop known_names start_time end_time rest (filtered ++ [t])
  end.

(** One pass of the second loop, lines 235-237. *)
Definition render_line (entry : value) : result string :=
  let? name := py_get entry "participantName" (PyStr placeholder) in
  let? text := py_get entry "text" (PyStr EmptyString) in
  Ok (fmt name ++ ": " ++ fmt text).

(** The second loop, lines 233-237. *)
Fixpoint dialog_loop (filtered : list value) (dialog_lines : list string)
  : result (list string) :=
  match filtered with
  | [] => Ok dialog_lines
  | entry :: rest =>
      let? line := render_line entry in
      dialog_loop rest (dialog_lines ++ [line])
  end.

(** Lines 190-231: the payload up to the list of surviving entries. *)
Definition surviving (data : value) (known_names : list string)
    (start_time end_time : option datetime) : result (list value) :=
  let? transcriptions := py_get data "transcriptions" (PyList []) in
  let? ts := py_iter transcriptions in
  filter_loop known_names start_time end_time ts [].

(** The whole function on the decoded payload; the result carries the
    arguments of the [log_transcription] call, whose own failures are
    caught inside it. *)
Definition parse_decoded (transcriptions_json : string) (data : value)
    (known_names : list string) (start_time end_time : option datetime)
  : result (string * log_call) :=
  let? filtered := surviving data known_names start_time end_time in
  let? dialog_lines := dialog_loop filtered [] in
  let parsed_text := String.concat newline dialog_lines in
  let? rid := py_get data "roomId" PyNone in
  let? room_id :=
    if py_truthy rid then py_getitem data "roomId" else Ok (PyStr "unknown") in
  Ok (parsed_text, mkLogCall room_id transcriptions_json parsed_text).

Definition parse_transcriptions_run (transcriptions_json : string)
    (known_names : list string) (start_time end_time : option datetime)
  : result (string * log_call) :=
  let? data := json_loads transcriptions_json in
  parse_decoded transcriptions_json data known_names start_time end_time.

(** The value [parse_transcriptions] returns. *)
Definition parse_transcriptions (transcriptions_json : string)
    (known_names : list string) (start_time end_time : option datetime)
  : result string :=
  rmap fst (parse_transcriptions_run transcriptions_json known_names
              start_time end_time).

End Normaliser.

(* ================================================================== *)
(** * The outside world: remote service, clock, file system *)

Record request : Type := mkRequest {
  req_method : string;
  req_url : string;
  req_headers : list (string * string);
  req_json : option value
}.

(** What came back: the transport failed, or a response with its status
    and what [await response.json()] gives when it is asked for. *)
Inductive outcome : Type :=
| NetFail (e : exn)
| Http (status : Z) (body : result value).

Record reply : Type := mkReply {
  latency : float;        (* seconds the exchange took *)
  reply_outcome : outcome
}.

Inductive event : Type :=
| ENet (rq : request) (rp : reply)
| ESleep (seconds : float)
| EWrite (path : string) (content : dict) (failure : option exn).

(** The fields of a [SaluteJazzAPI] object. *)
Record api_state : Type := mkApi {
  project_id : value;
  key_id : value;
  access_token : value;       (* [PyNone] until a token is obtained *)
  token_expires : float
}.

(** [SaluteJazzAPI.__init__], after the key has been decoded. *)
Definition api_init (project key : value) : api_state :=
  mkApi project key PyNone 0%float.

Record world : Type := mkWorld {
  api : api_state;            (* the module-level [api] object *)
  clock : float;              (* what [time.time()] reads *)
  trace : list event          (* what has happened, oldest first *)
}.

(** Effectful code: state passing with exceptions; the world a raising
    computation leaves behind is kept. *)
Definition M (A : Type) : Type := world -> result A * world.

Definition ret {A : Type} (a : A) : M A := fun w => (Ok a, w).

Definition bind {A B : Type} (m : M A) (k : A -> M B) : M B :=
  fun w =>
    match m w with
    | (Ok a, w') => k a w'
    | (Raise e, w') => (Raise e, w')
    end.

Definition lift {A : Type} (r : result A) : M A := fun w => (r, w).

Declare Scope io_scope.
Delimit Scope io_scope with io.
Notation "'let*' x ':=' m 'in' k" := (bind m (fun x => k))
  (at level 10, x name, m at level 100, k at level 200) : io_scope.
Notation "m ';;' k" := (bind m (fun _ => k))
  (at level 61, right associativity) : io_scope.
Local Open Scope io_scope.

Record jwt_header : Type := mkJwtHeader {
  typ : string;
  alg : string;
  kid : value
}.

Record jwt_payload : Type := mkJwtPayload {
  iat : datetime;
  exp : datetime;
  jti : string;
  sdkProjectId : value;
  sub : string
}.

Definition login_url : string := "https://api.salutejazz.ru/v1/auth/login".
Definition create_url : string := "https://api.salutejazz.ru/v1/room/create".

Section Client.

(** The remote service, given everything that happened before. *)
Variable remote : list event -> request -> reply.
(** [open(path, 'w')] with [json.dump]: the exception it raises, if any. *)
Variable fs_write : list event -> string -> dict -> option exn.
(** [jwt.encode] with the client's key and ES384. *)
Variable jwt_encode : jwt_header -> jwt_payload -> string.
(** [str(uuid.uuid4())]. *)
Variable uuid4 : list event -> string.
(** [datetime.datetime.utcnow()] at a clock reading. *)
Variable utcnow : float -> datetime.
(** [str(v)] for a [v] that is not a [str]. *)
Variable py_str : value -> string.

(** [time.time()]. *)
Definition time_time : M float := fun w => (Ok (clock w), w).

(** One request inside its own [aiohttp.ClientSession]. *)
Definition http (rq : request) : M (Z * result value) :=
  fun w =>
    let rp := remote (trace w) rq in
    let w' := mkWorld (api w) (PrimFloat.add (clock w) (latency rp))
                      (trace w ++ [ENet rq rp]) in
    match reply_outcome rp with
    | NetFail e => (Raise e, w')
    | Http status body => (Ok (status, body), w')
    end.

(** [await asyncio.sleep(seconds)]. *)
Definition sleep (seconds : float) : M unit :=
  fun w =>
    (Ok tt, mkWorld (api w) (PrimFloat.add (clock w) seconds)
                    (trace w ++ [ESleep seconds])).

(** [with open(path, 'w') as f: json.dump(content, f, indent=2)]. *)
Definition write_json (path : string) (content : dict) : M unit :=
  fun w =>
    let failure := fs_write (trace w) path content in
    let w' := mkWorld (api w) (clock w)
                      (trace w ++ [EWrite path content failure]) in
    match failure with
    | Some e => (Raise e, w')
    | None => (Ok tt, w')
    end.

Definition get_api : M api_state := fun w => (Ok (api w), w).

Definition set_access_token (tok : value) : M unit :=
  fun w =>
    let a := api w in
    (Ok tt, mkWorld (mkApi (project_id a) (key_id a) tok (token_expires a))
                    (clock w) (trace w)).

Definition set_token_expires (t : float) : M unit :=
  fun w =>
    let a := api w in
    (Ok tt, mkWorld (mkApi (project_id a) (key_id a) (access_token a) t)
                    (clock w) (trace w)).

Definition bearer (token : string) : string := "Bearer " ++ token.

(** The request of lines 53-58. *)
Definition login_request (transport_token : string) : request :=
  mkRequest "POST" login_url
    [("Accept", "application/json");
     ("Authorization", bearer transport_token)]
    None.

(** Lines 29-49: the signed assertion. *)
Definition transport_token_of (w : world) : string :=
  let self := api w in
  let jwt_header := mkJwtHeader "JWT" "ES384" (key_id self) in
  let iat := utcnow (clock w) in
  let exp := mkDatetime (civil iat + hour_us) (tzoffset iat) in
  let jti := uuid4 (trace w) in
  jwt_encode jwt_header
    (mkJwtPayload iat exp jti (project_id self)
       "15eca6c5-fb2d-48f2-804a-f97e542ebd33").

(** The cache test of line 25. *)
Definition token_is_fresh (w : world) : bool :=
  py_truthy (access_token (api w))
  && PrimFloat.ltb (clock w) (token_expires (api w)).

(** [SaluteJazzAPI._get_access_token]. *)
Definition _get_access_token : M value :=
  fun w =>
    if token_is_fresh w then (Ok (access_token (api w)), w)
    else
      (let* response := http (login_request (transport_token_of w)) in
       let* data := lift (snd response) in
       let* token := lift (py_getitem data "token") in
       set_access_token token ;;
       let* now := time_time in
       set_token_expires (PrimFloat.add now 3600%float) ;;
       let* self := get_api in
       ret (access_token self)) w.

Definition fmt_token (token : value) : string :=
  match token with
  | PyStr s => s
  | _ => py_str token
  end.

(** The request of lines 68-81. *)
Definition create_request (token : value) (room_title : string) : request :=
  mkRequest "POST" create_url
    [("Content-Type", "application/json");
     ("Accept", "application/json");
     ("Authorization", bearer (fmt_token token))]
    (Some (PyDict
       [("roomTitle", PyStr room_title);
        ("serverVideoRecordAutoStartEnabled", PyBool false);
        ("roomType", PyStr "MEETING");
        ("transcriptionAutoStartEnabled", PyBool true);
        ("summarizationEnabled", PyBool false)])).

(** [SaluteJazzAPI.create_room]. *)
Definition create_room (room_title : string) : M value :=
  let* token := _get_access_token in
  let* response := http (create_request token room_title) in
  lift (snd response).

(** [f"Room #{i+1}"]. *)
Definition room_label (i : nat) : string :=
  "Room #" ++ NilEmpty.string_of_uint (Nat.to_uint (i + 1)).

(** The loop of lines 160-167 over the values [range(count)] yields. *)
Fixpoint create_rooms_loop (range : list nat) (rooms : dict) : M dict :=
  match range with
  | [] => ret rooms
  | i :: rest =>
      let* room_data := create_room (room_label i) in
      let* room_id := lift (py_getitem room_data "roomId") in
      let* room_url := lift (py_getitem room_data "roomUrl") in
      let rooms' := dict_set (room_label i) room_url rooms in
      sleep 1%float ;;
      create_rooms_loop rest rooms'
  end.

(** [range(count)]: empty when [count] is not positive. *)
Definition py_range (count : Z) : list nat := seq 0 (Z.to_nat count).

(** [create_rooms]. *)
Definition create_rooms (count : Z) (save_path : string) : M dict :=
  let* rooms := create_rooms_loop (py_range count) [] in
  write_json save_path rooms ;;
  ret rooms.

End Client.

(* ================================================================== *)
(** * What the specification says, in its own words *)

Definition is_dict (v : value) : bool :=
  match v with PyDict _ => true | _ => false end.

(** The participant name of an entry, when it has one and it is a string. *)
Definition participant_name (t : value) : option string :=
  match t with
  | PyDict d =>
      match dict_get "participantName" d with
      | Some (PyStr s) => Some s
      | _ => None
      end
  | _ => None
  end.

(** The entry carries no [participantName] field at all. *)
Definition name_missing (t : value) : Prop :=
  exists d, t = PyDict d /\ dict_get "participantName" d = None.

(** Membership of the allow-list under exact string comparison. *)
Definition allowed (known_names : list string) (t : value) : bool :=
  match participant_name t with
  | Some s => existsb (String.eqb s) known_names
  | None => false
  end.

(** The list under [transcriptions], or the empty list without that key. *)
Definition transcriptions_of (fields : dict) (ts : list value) : Prop :=
  dict_get "transcriptions" fields = Some (PyList ts)
  \/ (dict_get "transcriptions" fields = None /\ ts = []).

(** The instant a window bound denotes: read in its own offset if it has
    one, in the fixed +3 hours if it has none. *)
Definition bound_instant (b : datetime) : Z :=
  civil b - match tzoffset b with Some off => off | None => msk_timezone end.

(** The bound can be converted to UTC. *)
Definition bound_ok (b : option datetime) : Prop :=
  match b with
  | Some d => in_datetime_range (bound_instant d) = true
  | None => True
  end.

(** Both ends inclusive; an absent bound does not restrict. *)
Definition in_window (start_time end_time : option datetime) (c : Z) : bool :=
  match start_time with Some s => bound_instant s <=? c | None => true end
  && match end_time with Some e => c <=? bound_instant e | None => true end.

Section NormaliserSpec.

Variable fromisoformat : string -> option datetime.
Variable py_str : value -> string.

(** The text portion of a line: the [text] field, empty without it. *)
Definition text_of (t : value) : string :=
  match t with
  | PyDict d =>
      match dict_get "text" d with
      | Some v => fmt py_str v
      | None => EmptyString
      end
  | _ => EmptyString
  end.

(** One line ["<participantName>: <text>"] per allow-listed entry, in
    payload order. *)
Fixpoint spec_lines (known_names : list string) (ts : list value)
  : list string :=
  match ts with
  | [] => []
  | t :: rest =>
      match participant_name t with
      | Some s =>
          if existsb (String.eqb s) known_names
          then (s ++ ": " ++ text_of t) :: spec_lines known_names rest
          else spec_lines known_names rest
      | None => spec_lines known_names rest
      end
  end.

(** The instant of an entry's [createdAt], when it is a string that
    parses to a datetime with an offset. *)
Definition created_instant (t : value) : option Z :=
  match t with
  | PyDict d =>
      match dict_get "createdAt" d with
      | Some (PyStr s) =>
          match fromisoformat (replace_Z s) with
          | Some dt =>
              match tzoffset dt with
              | Some off => Some (civil dt - off)
              | None => None
              end
          | None => None
          end
      | _ => None
      end
  | _ => None
  end.

(** The entry passes both filters. *)
Definition kept (known_names : list string)
    (start_time end_time : option datetime) (t : value) : bool :=
  allowed known_names t
  && match created_instant t with
     | Some c => in_window start_time end_time c
     | None => false
     end.

(** An entry the window can be applied to: an object whose [createdAt],
    if the entry is allow-listed, is a timestamp with an offset. *)
Definition timed_entry (known_names : list string) (t : value) : Prop :=
  is_dict t = true
  /\ (allowed known_names t = true -> created_instant t <> None).

(** [createdAt] is absent, not a string, or not an ISO timestamp. *)
Definition created_at_unreadable (t : value) : Prop :=
  exists d, t = PyDict d /\
    match dict_get "createdAt" d with
    | None => True
    | Some (PyStr s) => fromisoformat (replace_Z s) = None
    | Some _ => True
    end.

End NormaliserSpec.

(* ================================================================== *)
(** * Reading a trace *)

(** What a trace shows, the token exchanges left out: the room-creation
    calls with their title and the room URL that came back (if one did),
    the sleeps, the writes, and any other request. *)
Inductive obs : Type :=
| OCreate (title : value) (room_url : option value)
| OSleep (seconds : float)
| OWrite (path : string) (content : dict) (failure : option exn)
| OOther (rq : request).

(** The [roomTitle] a creation request carries. *)
Definition title_of (rq : request) : value :=
  match req_json rq with
  | Some (PyDict d) =>
      match dict_get "roomTitle" d with Some v => v | None => PyNone end
  | _ => PyNone
  end.

(** The [roomUrl] of a reply, when it has a decoded body with that key. *)
Definition room_url_of (rp : reply) : option value :=
  match reply_outcome rp with
  | Http _ (Ok (PyDict d)) => dict_get "roomUrl" d
  | _ => None
  end.

Definition observe_event (ev : event) : list obs :=
  match ev with
  | ENet rq rp =>
      if String.eqb (req_url rq) login_url then []
      else if String.eqb (req_url rq) create_url
           then [OCreate (title_of rq) (room_url_of rp)]
           else [OOther rq]
  | ESleep s => [OSleep s]
  | EWrite p c f => [OWrite p c f]
  end.

Definition observe (tr : list event) : list obs := flat_map observe_event tr.

Definition is_sleep (o : obs) : bool :=
  match o with OSleep _ => true | _ => false end.

Definition is_create (o : obs) : bool :=
  match o with OCreate _ _ => true | _ => false end.

Definition is_write (o : obs) : bool :=
  match o with OWrite _ _ _ => true | _ => false end.

Definition count_sleeps (tr : list event) : nat :=
  List.length (filter is_sleep (observe tr)).

Definition count_creates (tr : list event) : nat :=
  List.length (filter is_create (observe tr)).

Definition count_writes (tr : list event) : nat :=
  List.length (filter is_write (observe tr)).

(** The [roomUrl] of a decoded body. *)
Definition data_room_url (data : value) : option value :=
  match data with
  | PyDict d => dict_get "roomUrl" d
  | _ => None
  end.

(** The rooms dictionary after the assignments [rooms[k] = v] of [kvs]. *)
Definition dict_set_all (kvs : list (string * value)) (rooms : dict) : dict :=
  fold_left (fun d kv => dict_set (fst kv) (snd kv) d) kvs rooms.

(** One finished round of the provisioning loop, as the trace shows it. *)
Definition round (kv : string * value) : list obs :=
  [OCreate (PyStr (fst kv)) (Some (snd kv)); OSleep 1%float].

(** The service answers every token exchange with a body that has a
    [token] and every creation with a body that has [roomId] and
    [roomUrl]. *)
Definition remote_healthy (remote : list event -> request -> reply) : Prop :=
  forall tr rq,
    (req_url rq = login_url ->
       exists status d tok,
         reply_outcome (remote tr rq) = Http status (Ok (PyDict d))
         /\ dict_get "token" d = Some tok)
    /\ (req_url rq = create_url ->
       exists status d rid rurl,
         reply_outcome (remote tr rq) = Http status (Ok (PyDict d))
         /\ dict_get "roomId" d = Some rid
         /\ dict_get "roomUrl" d = Some rurl).

(* ================================================================== *)
(** * Concrete surroundings for the examples *)

Module Demo.

Definition jwt_encode (h : jwt_header) (p : jwt_payload) : string :=
  alg h ++ "." ++ jti p.
Definition uuid4 (tr : list event) : string := "0f8fad5b".
Definition utcnow (t : float) : datetime := mkDatetime 0 None.
Definition py_str (v : value) : string := "?".
Definition fs_write (tr : list event) (p : string) (c : dict) : option exn :=
  None.

Definition login_body : value := PyDict [("token", PyStr "access-1")].
Definition room_body : value :=
  PyDict [("roomId", PyStr "abc123");
          ("roomUrl", PyStr "https://salutejazz.ru/abc123?psw=z")].

(** Every exchange and every creation succeeds. *)
Definition remote (tr : list event) (rq : request) : reply :=
  mkReply 0.25%float
    (Http 200 (Ok (if String.eqb (req_url rq) login_url
                   then login_body else room_body))).

(** The second creation is answered with an error body. *)
Definition remote_failing_second (tr : list event) (rq : request) : reply :=
  if String.eqb (req_url rq) create_url
     && Nat.leb 1 (count_creates tr)
  then mkReply 0.25%float
         (Http 429 (Ok (PyDict [("error", PyStr "too many requests")])))
  else remote tr rq.

Definition fresh_api : api_state := api_init (PyStr "project-1") (PyStr "key-1").

(** Nothing cached yet. *)
Definition w0 : world := mkWorld fresh_api 1000%float [].

(** A token cached until 4600. *)
Definition w_cached : world :=
  mkWorld (mkApi (PyStr "project-1") (PyStr "key-1") (PyStr "access-0")
             4600%float)
          1000%float [].

(** A token that ran out at 900. *)
Definition w_expired : world :=
  mkWorld (mkApi (PyStr "project-1") (PyStr "key-1") (PyStr "access-0")
             900%float)
          1000%float [].

(** 2025-10-07 is day 739531 of the calendar; times of that day. *)
Definition day : Z := (739531 - 1) * 24 * hour_us.
Definition at_utc (h m : Z) : datetime :=
  mkDatetime (day + h * hour_us + m * 60 * 1000000) (Some 0).
Definition at_naive (h m : Z) : datetime :=
  mkDatetime (day + h * hour_us + m * 60 * 1000000) None.

(** The three timestamps of the examples, and nothing else. *)
Definition fromisoformat (s : string) : option datetime :=
  if String.eqb s "2025-10-07T11:00:00+00:00" then Some (at_utc 11 0)
  else if String.eqb s "2025-10-07T12:00:00+00:00" then Some (at_utc 12 0)
  else if String.eqb s "2025-10-07T13:00:00+00:00" then Some (at_utc 13 0)
  else None.

Definition entry (name text created : string) : value :=
  PyDict [("participantName", PyStr name); ("text", PyStr text);
          ("createdAt", PyStr created)].

(** Alice and Bob, the payload of the filtering example. *)
Definition payload_ab : value :=
  PyDict [("transcriptions",
           PyList [entry "Alice" "hi" "2025-10-07T11:00:00Z";
                   entry "Bob" "yo" "2025-10-07T12:00:00Z"])].

(** Entries at 14:00, 15:00 and 16:00 Moscow time. *)
Definition payload_hours : value :=
  PyDict [("roomId", PyStr "abc123");
          ("transcriptions",
           PyList [entry "Alice" "two" "2025-10-07T11:00:00Z";
                   entry "Alice" "three" "2025-10-07T12:00:00Z";
                   entry "Alice" "four" "2025-10-07T13:00:00Z"])].

(** An allow-listed entry without [text], one without a name, and one
    without [createdAt]. *)
Definition payload_gaps : value :=
  PyDict [("transcriptions",
           PyList [PyDict [("participantName", PyStr "Alice");
                           ("createdAt", PyStr "2025-10-07T11:00:00Z")];
                   PyDict [("text", PyStr "anonymous")];
                   PyDict [("participantName", PyStr "Alice");
                           ("text", PyStr "late")]])].

(** No [transcriptions] key. *)
Definition payload_bare : value := PyDict [("roomId", PyStr "abc123")].

Definition json_loads (data : value) (s : string) : result value := Ok data.

End Demo.

(* ================================================================== *)
(** * The other room operations *)

Definition room_api : string := "https://api.salutejazz.ru/v1/room/".

Definition settings_url (room_id : string) : string :=
  room_api ++ room_id ++ "/settings/update".
Definition disable_url (room_id : string) : string :=
  room_api ++ room_id ++ "/disable".
Definition transcriptions_url (room_id : string) : string :=
  room_api ++ room_id ++ "/transcriptions".

Section RoomOperations.

Variable remote : list event -> request -> reply.
Variable jwt_encode : jwt_header -> jwt_payload -> string.
Variable uuid4 : list event -> string.
Variable utcnow : float -> datetime.
Variable py_str : value -> string.

(** The headers of lines 90-94 and 106-110. *)
Definition json_headers (token : value) : list (string * string) :=
  [("Content-Type", "application/json");
   ("Accept", "application/json");
   ("Authorization", bearer (fmt_token py_str token))].

(** The request of lines 88-97. *)
Definition settings_request (token : value) (room_id : string) : request :=
  mkRequest "POST" (settings_url room_id) (json_headers token)
    (Some (PyDict [("transcriptionAutoStartEnabled", PyBool false)])).

(** The request of lines 104-111. *)
Definition disable_request (token : value) (room_id : string) : request :=
  mkRequest "POST" (disable_url room_id) (json_headers token)
    (Some (PyDict [])).

(** The request of lines 118-123. *)
Definition transcriptions_request (token : value) (room_id : string)
  : request :=
  mkRequest "GET" (transcriptions_url room_id)
    [("Accept", "application/json");
     ("Authorization", bearer (fmt_token py_str token))]
    None.

(** [SaluteJazzAPI.disable_transcription]. *)
Definition disable_transcription (room_id : string) : M bool :=
  let* token := _get_access_token remote jwt_encode uuid4 utcnow in
  let* response := http remote (settings_request token room_id) in
  ret (fst response =? 204).

(** [SaluteJazzAPI.disable_room]. *)
Definition disable_room (room_id : string) : M bool :=
  let* token := _get_access_token remote jwt_encode uuid4 utcnow in
  let* response := http remote (disable_request token room_id) in
  ret (fst response =? 204).

(** [SaluteJazzAPI.get_transcriptions]. *)
Definition get_transcriptions (room_id : string) : M value :=
  let* token := _get_access_token remote jwt_encode uuid4 utcnow in
  let* response := http remote (transcriptions_request token room_id) in
  lift (snd response).

End RoomOperations.

(* ================================================================== *)
(** * [log_transcription] and [get_room_transcription] *)

(** [s.split(sep)] for a separator of one character: the pieces between
    its occurrences, at least one. *)
Fixpoint split_on (sep : ascii) (s : string) : list string :=
  match s with
  | EmptyString => [EmptyString]
  | String c rest =>
      if Ascii.eqb c sep then EmptyString :: split_on sep rest
      else
        match split_on sep rest with
        | piece :: pieces => String c piece :: pieces
        | [] => [String c EmptyString]
        end
  end.

(** [room_url.split('/')[-1].split('?')[0]], line 175. *)
Definition room_id_of_url (room_url : string) : string :=
  hd EmptyString
     (split_on "?"%char (last (split_on "/"%char room_url) EmptyString)).

(** The character [c] occurs in [s]. *)
Fixpoint occurs (c : ascii) (s : string) : bool :=
  match s with
  | EmptyString => false
  | String c' rest => Ascii.eqb c' c || occurs c rest
  end.

(** ["=" * n]. *)
Fixpoint rule (n : nat) : string :=
  match n with
  | O => EmptyString
  | S n' => String "="%char (rule n')
  end.

(** The log file and what was printed. *)
Record log_world : Type := mkLogWorld {
  log_file : string;          (* contents of [transcriptions_log.txt] *)
  printed : list string
}.

Definition logged_message : string :=
  "Транскрипция залогирована в transcriptions_log.txt".
Definition log_error_prefix : string :=
  "Ошибка при логировании транскрипции: ".

Section Logging.

(** [time.strftime("%Y-%m-%d %H:%M:%S")] at a clock reading. *)
Variable strftime : float -> string.
(** What [open("transcriptions_log.txt", "a")] raises, if anything, given
    the file's contents. *)
Variable open_error : string -> option exn.
(** [str(e)] of an exception. *)
Variable exn_str : exn -> string.
Variable py_str : value -> string.
(** [json.dumps(v, ensure_ascii=False)]. *)
Variable json_dumps : value -> string.
Variable remote : list event -> request -> reply.
Variable jwt_encode : jwt_header -> jwt_payload -> string.
Variable uuid4 : list event -> string.
Variable utcnow : float -> datetime.

(** The f-string of lines 135-141. *)
Definition raw_block (timestamp : string) (room_id : value)
    (transcription_data : string) : string :=
  newline ++ "=== Transcription - " ++ timestamp ++ " ===" ++ newline
  ++ "Room ID: " ++ fmt py_str room_id ++ newline
  ++ "Raw Data: " ++ transcription_data ++ newline
  ++ rule 60 ++ newline ++ newline.

(** The f-string of lines 143-149. *)
Definition parsed_block (timestamp : string) (room_id : value)
    (parsed_text : string) : string :=
  newline ++ "=== Parsed Transcription - " ++ timestamp ++ " ===" ++ newline
  ++ "Room ID: " ++ fmt py_str room_id ++ newline
  ++ "Parsed Text: " ++ parsed_text ++ newline
  ++ rule 60 ++ newline ++ newline.

(** Lines 134-149: the text to append.  [parsed_text] is [None] when the
    caller leaves it out. *)
Definition log_entry_of (timestamp : string) (room_id : value)
    (transcription_data : string) (parsed_text : option string) : string :=
  let log_entry := raw_block timestamp room_id transcription_data in
  match parsed_text with
  | Some p =>
      if negb (String.eqb p EmptyString)
      then log_entry ++ parsed_block timestamp room_id p
      else log_entry
  | None => log_entry
  end.

(** [log_transcription] called when the clock reads [now]: every
    exception is caught and reported on the output. *)
Definition log_transcription (now : float) (room_id : value)
    (transcription_data : string) (parsed_text : option string)
    (lw : log_world) : log_world :=
  let log_entry :=
    log_entry_of (strftime now) room_id transcription_data parsed_text in
  match open_error (log_file lw) with
  | None =>
      mkLogWorld (log_file lw ++ log_entry) (printed lw ++ [logged_message])
  | Some e =>
      mkLogWorld (log_file lw)
                 (printed lw ++ [log_error_prefix ++ exn_str e])
  end.

(** [get_room_transcription]. *)
Definition get_room_transcription (room_url : string) (w : world)
    (lw : log_world) : result string * world * log_world :=
  let room_id := room_id_of_url room_url in
  match get_transcriptions remote jwt_encode uuid4 utcnow py_str room_id w
  with
  | (Ok transcriptions, w') =>
      let result_json := json_dumps transcriptions in
      (Ok result_json, w',
       log_transcription (clock w') (PyStr room_id) result_json None lw)
  | (Raise e, w') => (Raise e, w', lw)
  end.


End Logging.

(** Requests of a trace that are token exchanges. *)
Definition is_login_event (ev : event) : bool :=
  match ev with
  | ENet rq _ => String.eqb (req_url rq) login_url
  | _ => false
  end.

(** Two allow-lists with the same members. *)
Definition same_members (k1 k2 : list string) : Prop :=
  forall s, In s k1 <-> In s k2.

Module DemoOps.

Definition strftime (t : float) : string := "2025-10-07 14:24:40".
Definition open_ok (contents : string) : option exn := None.
Definition open_denied (contents : string) : option exn :=
  Some (External "PermissionError").
Definition exn_str (e : exn) : string := exn_class e.
Definition json_dumps (v : value) : string := "dumped".
Definition lw0 : log_world := mkLogWorld "earlier" [].

(** The exchange is answered with a body without [token]. *)
Definition remote_no_token (tr : list event) (rq : request) : reply :=
  mkReply 0.25%float (Http 401 (Ok (PyDict [("error", PyStr "denied")]))).

(** Every request is answered 204 with a body that is not JSON. *)
Definition remote_no_content (tr : list event) (rq : request) : reply :=
  mkReply 0.25%float
    (if String.eqb (req_url rq) login_url
     then Http 200 (Ok Demo.login_body)
     else Http 204 (Raise (External "ContentTypeError"))).

(** The file cannot be written. *)
Definition fs_full (tr : list event) (p : string) (c : dict) : option exn :=
  Some (External "OSError").

(** A parser that knows one timestamp, written without an offset. *)
Definition fromisoformat_naive (s : string) : option datetime :=
  if String.eqb s "2025-10-07T11:00:00" then Some (Demo.at_naive 11 0)
  else None.

(** Bob, then Alice with a timestamp without an offset. *)
Definition payload_naive : value :=
  PyDict [("transcriptions",
           PyList [Demo.entry "Bob" "yo" "yesterday";
                   Demo.entry "Alice" "hi" "2025-10-07T11:00:00"])].

(** [datetime.min]. *)
Definition datetime_min : datetime := mkDatetime 0 None.

End DemoOps.

(* ================================================================== *)
(** * Lemmas on results, strings and dictionaries *)

Unset Implicit Arguments.

Lemma rbind_ok_inv {A B : Type} (r : result A) (k : A -> result B) (b : B) :
  rbind r k = Ok b -> exists a, r = Ok a /\ k a = Ok b.
Proof.
  destruct r as [a | e]; simpl; intros H.
  - exists a. split; [reflexivity | exact H].
  - discriminate H.
Qed.

Lemma existsb_eqb_In (s : string) (names : list string) :
  existsb (String.eqb s) names = true <-> In s names.
Proof.
  rewrite existsb_exists. split.
  - intros [x [Hin Heq]]. apply String.eqb_eq in Heq. now subst.
  - intros Hin. exists s. split; [exact Hin | apply String.eqb_refl].
Qed.

Lemma py_get_dict (d : dict) (k : string) (default : value) :
  py_get (PyDict d) k default
  = Ok (match dict_get k d with Some x => x | None => default end).
Proof. reflexivity. Qed.

Lemma is_dict_inv (t : value) : is_dict t = true -> exists d, t = PyDict d.
Proof.
  destruct t; simpl; try discriminate. intros _. eexists. reflexivity.
Qed.

Lemma allowed_inv (known_names : list string) (t : value) :
  allowed known_names t = true ->
  exists d s, t = PyDict d
              /\ dict_get "participantName" d = Some (PyStr s)
              /\ existsb (String.eqb s) known_names = true.
Proof.
  unfold allowed, participant_name.
  destruct t as [ | | | | | | d]; try discriminate.
  destruct (dict_get "participantName" d) as [[ | | | | s | | ] | ] eqn:Hname;
    try discriminate.
  intros H. exists d, s. repeat split; assumption.
Qed.

(** The membership test of line 195 is [allowed]. *)
Lemma py_in_allowed (known_names : list string) (d : dict) :
  py_in (match dict_get "participantName" d with
         | Some x => x
         | None => PyNone
         end) known_names
  = allowed known_names (PyDict d).
Proof.
  unfold allowed, participant_name.
  destruct (dict_get "participantName" d) as [[ | | | | s | | ] | ];
    reflexivity.
Qed.

(* ================================================================== *)
(** * The normaliser: filtering *)

Section NormaliserFacts.

Variable json_loads : string -> result value.
Variable fromisoformat : string -> option datetime.
Variable py_str : value -> string.


(** Whatever the loop lets through is on the allow-list. *)
Lemma filter_loop_allowed (known_names : list string) (ts : list value) :
  forall start_time end_time filtered out,
    Forall (fun t => allowed known_names t = true) filtered ->
    filter_loop fromisoformat known_names start_time end_time ts filtered = Ok out ->
    Forall (fun t => allowed known_names t = true) out.
Proof.
  induction ts as [ | t rest IH]; intros st en acc out Hacc Hrun.
  - simpl in Hrun. now inversion Hrun; subst.
  - simpl in Hrun.
    destruct t as [ | | | | | | d]; try discriminate Hrun.
    rewrite py_get_dict in Hrun. simpl rbind in Hrun.
    rewrite py_in_allowed in Hrun.
    destruct (allowed known_names (PyDict d)) eqn:Hallowed;
      simpl negb in Hrun; cbv iota in Hrun.
    2: { refine (IH _ _ _ _ _ Hrun); assumption. }
    assert (Hacc' : Forall (fun t => allowed known_names t = true)
                           (acc ++ [PyDict d])).
    { apply Forall_app. split; [exact Hacc | now constructor]. }
    destruct (is_some st || is_some en).
    2: { refine (IH _ _ _ _ _ Hrun); assumption. }
    apply rbind_ok_inv in Hrun. destruct Hrun as [raw [_ Hrun]].
    apply rbind_ok_inv in Hrun. destruct Hrun as [iso [_ Hrun]].
    apply rbind_ok_inv in Hrun. destruct Hrun as [created [_ Hrun]].
    apply rbind_ok_inv in Hrun. destruct Hrun as [[st' su] [_ Hrun]].
    apply rbind_ok_inv in Hrun. destruct Hrun as [[en' eu] [_ Hrun]].
    apply rbind_ok_inv in Hrun. destruct Hrun as [early [_ Hrun]].
    cbv beta iota in Hrun.
    destruct early.
    { refine (IH _ _ _ _ _ Hrun); assumption. }
    apply rbind_ok_inv in Hrun. destruct Hrun as [late [_ Hrun]].
    destruct late; refine (IH _ _ _ _ _ Hrun); assumption.
Qed.

(** Without a window the loop is the allow-list filter. *)
Lemma filter_loop_no_window (known_names : list string) (ts : list value) :
  forall filtered,
    Forall (fun t => is_dict t = true) ts ->
    filter_loop fromisoformat known_names None None ts filtered
    = Ok (filtered ++ filter (allowed known_names) ts)%list.
Proof.
  induction ts as [ | t rest IH]; intros acc Hts.
  - simpl. now rewrite app_nil_r.
  - inversion Hts as [ | t' rest' Ht Hrest]; subst.
    apply is_dict_inv in Ht. destruct Ht as [d ->].
    simpl filter_loop. rewrite py_in_allowed. simpl filter.
    destruct (allowed known_names (PyDict d)); simpl.
    + rewrite IH by exact Hrest. now rewrite <- app_assoc.
    + now apply IH.
Qed.

Lemma bound_instant_assume_msk (b : datetime) :
  bound_instant (assume_msk b) = bound_instant b.
Proof.
  destruct b as [c [off | ]]; reflexivity.
Qed.

Lemma bound_ok_assume_msk (b : option datetime) :
  bound_ok b -> bound_ok (option_map assume_msk b).
Proof.
  destruct b as [d | ]; simpl; [ | trivial].
  now rewrite bound_instant_assume_msk.
Qed.

Lemma in_window_assume_msk (s e : option datetime) (c : Z) :
  in_window (option_map assume_msk s) (option_map assume_msk e) c
  = in_window s e c.
Proof.
  unfold in_window.
  destruct s as [s | ], e as [e | ]; simpl;
    now rewrite ?bound_instant_assume_msk.
Qed.

Lemma kept_assume_msk (known_names : list string)
    (s e : option datetime) (t : value) :
  kept fromisoformat known_names (option_map assume_msk s) (option_map assume_msk e) t
  = kept fromisoformat known_names s e t.
Proof.
  unfold kept.
  destruct (created_instant fromisoformat t); [ | reflexivity].
  now rewrite in_window_assume_msk.
Qed.

(** Converting a usable bound: the variable is rebound to the bound read
    in Moscow time if it was naive, and the UTC value is its instant. *)
Lemma bound_to_utc_ok (b : option datetime) :
  bound_ok b ->
  bound_to_utc b
  = Ok (option_map assume_msk b,
        option_map (fun d => mkDatetime (bound_instant d) (Some 0)) b).
Proof.
  destruct b as [[c [off | ]] | ]; [ | | reflexivity];
    unfold bound_ok, bound_to_utc, assume_msk, bound_instant, astimezone_utc;
    simpl; intros ->; reflexivity.
Qed.

Lemma bound_to_utc_is_some (b b' u : option datetime) :
  bound_to_utc b = Ok (b', u) -> is_some b' = is_some b.
Proof.
  destruct b as [d | ]; simpl.
  - destruct (tzoffset (assume_msk d)); [ | discriminate].
    destruct (astimezone_utc (assume_msk d) z); simpl; [ | discriminate].
    intros H. now inversion H.
  - intros H. now inversion H.
Qed.

(** One pass of the first loop either raises or goes on with the rest,
    and going on never drops a window bound. *)
Lemma filter_step_cases (known_names : list string) (t : value)
    (rest : list value) (st en : option datetime) (acc : list value) :
  (exists e,
     filter_loop fromisoformat known_names st en (t :: rest) acc = Raise e)
  \/ (exists st' en' acc',
        filter_loop fromisoformat known_names st en (t :: rest) acc
        = filter_loop fromisoformat known_names st' en' rest acc'
        /\ is_some st' = is_some st /\ is_some en' = is_some en).
Proof.
  simpl.
  destruct (py_get t "participantName" PyNone) as [name | e]; simpl;
    [ | left; eauto].
  destruct (negb (py_in name known_names)); [right; eauto 6 | ].
  destruct (is_some st || is_some en); [ | right; eauto 6].
  destruct (py_getitem t "createdAt") as [raw | e]; simpl; [ | left; eauto].
  destruct (py_replace_Z raw) as [iso | e]; simpl; [ | left; eauto].
  destruct (fromisoformat iso) as [created | ]; simpl; [ | left; eauto].
  destruct (bound_to_utc st) as [[st' su] | e] eqn:Hst; simpl;
    [ | left; eauto].
  destruct (bound_to_utc en) as [[en' eu] | e] eqn:Hen; simpl;
    [ | left; eauto].
  apply bound_to_utc_is_some in Hst, Hen.
  destruct (match su with Some s => dt_lt created s | None => Ok false end)
    as [[ | ] | e]; simpl; [right; eauto 6 | | left; eauto].
  destruct (match eu with Some s => dt_gt created s | None => Ok false end)
    as [[ | ] | e]; simpl; [right; eauto 6 | right; eauto 6 | left; eauto].
Qed.

(** An allow-listed entry with a readable timestamp is kept exactly when
    its instant lies in the window. *)
Lemma filter_step_timed (known_names : list string) (d : dict) (c : Z)
    (rest : list value) (st en : option datetime) (acc : list value) :
  allowed known_names (PyDict d) = true ->
  created_instant fromisoformat (PyDict d) = Some c ->
  bound_ok st -> bound_ok en ->
  filter_loop fromisoformat known_names st en (PyDict d :: rest) acc
  = filter_loop fromisoformat known_names
      (option_map assume_msk st) (option_map assume_msk en) rest
      (if in_window st en c then acc ++ [PyDict d] else acc).
Proof.
  intros Hallowed Hc Hst Hen.
  simpl filter_loop. rewrite py_in_allowed, Hallowed. simpl negb. cbv iota.
  unfold created_instant in Hc.
  destruct (dict_get "createdAt" d) as [[ | | | | s | | ] | ] eqn:Hraw;
    try discriminate Hc.
  destruct (fromisoformat (replace_Z s)) as [dt | ] eqn:Hiso;
    try discriminate Hc.
  destruct (tzoffset dt) as [off | ] eqn:Htz; try discriminate Hc.
  injection Hc as <-.
  destruct (is_some st || is_some en) eqn:Hwindow.
  - simpl rbind. rewrite Hiso. simpl rbind.
    rewrite (bound_to_utc_ok st Hst), (bound_to_utc_ok en Hen). simpl rbind.
    unfold in_window, dt_gt, dt_lt, utc_instant.
    destruct st as [s0 | ], en as [e0 | ]; simpl; rewrite ?Htz; simpl;
      rewrite ?Z.sub_0_r;
      repeat match goal with
             | |- context [?a <? ?b] => destruct (Z.ltb_spec a b)
             | |- context [?a <=? ?b] => destruct (Z.leb_spec a b)
             end; simpl; try reflexivity; lia.
  - destruct st, en; try discriminate Hwindow. reflexivity.
Qed.

(** With usable bounds and readable timestamps the loop keeps exactly the
    allow-listed entries whose instant lies in the window. *)
Lemma filter_loop_window (known_names : list string) (ts : list value) :
  forall st en acc,
    bound_ok st -> bound_ok en ->
    Forall (timed_entry fromisoformat known_names) ts ->
    filter_loop fromisoformat known_names st en ts acc
    = Ok (acc ++ filter (kept fromisoformat known_names st en) ts)%list.
Proof.
  induction ts as [ | t rest IH]; intros st en acc Hst Hen Hts.
  - simpl. now rewrite app_nil_r.
  - inversion Hts as [ | t' rest' [Hdict Htimed] Hrest]; subst.
    apply is_dict_inv in Hdict. destruct Hdict as [d ->].
    simpl filter. unfold kept at 1.
    destruct (allowed known_names (PyDict d)) eqn:Hallowed.
    + specialize (Htimed eq_refl).
      destruct (created_instant fromisoformat (PyDict d)) as [c | ] eqn:Hc;
        [ | congruence].
      rewrite (filter_step_timed known_names d c rest st en acc Hallowed Hc Hst Hen).
      rewrite IH by auto using bound_ok_assume_msk.
      rewrite (filter_ext _ _ (kept_assume_msk known_names st en)).
      simpl andb. destruct (in_window st en c); [ | reflexivity].
      now rewrite <- app_assoc.
    + simpl filter_loop. rewrite py_in_allowed, Hallowed. simpl.
      now apply IH.
Qed.

(** With a window, an allow-listed entry whose [createdAt] cannot be read
    makes the loop raise. *)
Lemma filter_loop_unreadable (known_names : list string) (ts : list value) :
  forall st en acc,
    is_some st || is_some en = true ->
    Exists (fun t => allowed known_names t = true
                     /\ created_at_unreadable fromisoformat t) ts ->
    exists e, filter_loop fromisoformat known_names st en ts acc = Raise e.
Proof.
  induction ts as [ | t rest IH]; intros st en acc Hwindow Hbad.
  - inversion Hbad.
  - inversion Hbad as [t' rest' [Hallowed [d [-> Hread]]] | t' rest' Hlater];
      subst.
    + simpl filter_loop.
      rewrite py_in_allowed, Hallowed, Hwindow. simpl negb. cbv iota.
      destruct (dict_get "createdAt" d) as [[ | | | | s | | ] | ];
        simpl; eauto.
      rewrite Hread. simpl. eauto.
    + destruct (filter_step_cases known_names t rest st en acc)
        as [Hraise | [st' [en' [acc' [Hstep [Hst Hen]]]]]]; [exact Hraise | ].
      rewrite Hstep. apply IH; [ | exact Hlater].
      now rewrite Hst, Hen.
Qed.

End NormaliserFacts.

(* ================================================================== *)
(** * The normaliser: rendering and the whole function *)

Lemma append_empty_r (s : string) : (s ++ EmptyString)%string = s.
Proof. induction s as [ | c s IH]; simpl; [reflexivity | now rewrite IH]. Qed.

Section NormaliserRun.

Variable json_loads : string -> result value.
Variable fromisoformat : string -> option datetime.
Variable py_str : value -> string.

(** An allow-listed entry is rendered under its own name. *)
Lemma render_line_allowed (known_names : list string) (t : value) :
  allowed known_names t = true ->
  exists s, participant_name t = Some s
            /\ render_line py_str t = Ok (s ++ ": " ++ text_of py_str t).
Proof.
  intros Hallowed.
  destruct (allowed_inv known_names t Hallowed) as [d [s [-> [Hname _]]]].
  exists s. unfold participant_name, render_line, text_of. simpl.
  rewrite Hname. simpl. split; [reflexivity | ].
  destruct (dict_get "text" d); reflexivity.
Qed.

(** Without a name the rendering loop would fall back on the placeholder. *)
Lemma render_line_placeholder (d : dict) :
  dict_get "participantName" d = None ->
  render_line py_str (PyDict d)
  = Ok (placeholder ++ ": " ++ text_of py_str (PyDict d)).
Proof.
  intros Hname. unfold render_line, text_of. simpl. rewrite Hname. simpl.
  destruct (dict_get "text" d); reflexivity.
Qed.

Lemma spec_lines_allowed (known_names : list string) (t : value) (s : string)
    (rest : list value) :
  allowed known_names t = true -> participant_name t = Some s ->
  spec_lines py_str known_names (t :: rest)
  = (s ++ ": " ++ text_of py_str t) :: spec_lines py_str known_names rest.
Proof.
  unfold allowed. intros Hallowed Hname. simpl. rewrite Hname in *.
  now rewrite Hallowed.
Qed.

Lemma spec_lines_app (known_names : list string) (l1 l2 : list value) :
  spec_lines py_str known_names (l1 ++ l2)
  = (spec_lines py_str known_names l1 ++ spec_lines py_str known_names l2)%list.
Proof.
  induction l1 as [ | t l1 IH]; simpl; [reflexivity | ].
  destruct (participant_name t) as [s | ]; [ | exact IH].
  destruct (existsb (String.eqb s) known_names); [ | exact IH].
  simpl. now rewrite IH.
Qed.

(** Filtering by the allow-list first changes nothing. *)
Lemma spec_lines_filter (known_names : list string) (ts : list value) :
  spec_lines py_str known_names (filter (allowed known_names) ts)
  = spec_lines py_str known_names ts.
Proof.
  induction ts as [ | t rest IH]; simpl; [reflexivity | ].
  unfold allowed at 1.
  destruct (participant_name t) as [s | ] eqn:Hname; [ | exact IH].
  destruct (existsb (String.eqb s) known_names) eqn:Hin; [ | exact IH].
  simpl. rewrite Hname, Hin. now rewrite IH.
Qed.

(** Every allow-listed entry gives one line. *)
Lemma spec_lines_length (known_names : list string) (l : list value) :
  Forall (fun t => allowed known_names t = true) l ->
  List.length (spec_lines py_str known_names l) = List.length l.
Proof.
  induction 1 as [ | t rest Hallowed _ IH]; simpl; [reflexivity | ].
  unfold allowed in Hallowed.
  destruct (participant_name t) as [s | ]; [ | discriminate].
  rewrite Hallowed. simpl. now rewrite IH.
Qed.

(** The second loop on allow-listed entries. *)
Lemma dialog_loop_allowed (known_names : list string) (l : list value) :
  forall dialog_lines,
    Forall (fun t => allowed known_names t = true) l ->
    dialog_loop py_str l dialog_lines
    = Ok (dialog_lines ++ spec_lines py_str known_names l)%list.
Proof.
  induction l as [ | t rest IH]; intros acc Hl.
  - simpl. now rewrite app_nil_r.
  - inversion Hl as [ | t' rest' Hallowed Hrest]; subst.
    destruct (render_line_allowed known_names t Hallowed) as [s [Hname Hline]].
    simpl dialog_loop. rewrite Hline. simpl rbind.
    rewrite IH by exact Hrest.
    rewrite (spec_lines_allowed known_names t s rest Hallowed Hname).
    now rewrite <- app_assoc.
Qed.

(** The list of surviving entries exists only for a payload that is an
    object. *)
Lemma surviving_dict (data : value) (known_names : list string)
    (st en : option datetime) (filtered : list value) :
  surviving fromisoformat data known_names st en = Ok filtered ->
  exists fields, data = PyDict fields.
Proof.
  destruct data; simpl; try discriminate. intros _. eexists. reflexivity.
Qed.

Lemma surviving_allowed (data : value) (known_names : list string)
    (st en : option datetime) (filtered : list value) :
  surviving fromisoformat data known_names st en = Ok filtered ->
  Forall (fun t => allowed known_names t = true) filtered.
Proof.
  unfold surviving. intros Hrun.
  apply rbind_ok_inv in Hrun. destruct Hrun as [transcriptions [_ Hrun]].
  apply rbind_ok_inv in Hrun. destruct Hrun as [ts [_ Hrun]].
  refine (filter_loop_allowed fromisoformat known_names ts _ _ _ _ _ Hrun).
  constructor.
Qed.

(** The list under [transcriptions] is what the first loop visits. *)
Lemma surviving_transcriptions (fields : dict) (ts : list value)
    (known_names : list string) (st en : option datetime) :
  transcriptions_of fields ts ->
  surviving fromisoformat (PyDict fields) known_names st en
  = filter_loop fromisoformat known_names st en ts [].
Proof.
  unfold surviving. simpl.
  intros [Hts | [Hts ->]]; rewrite Hts; reflexivity.
Qed.

(** Once the first loop is through, the function returns the joined lines:
    neither rendering nor logging can fail any more. *)
Lemma parse_of_surviving (raw : string) (data : value)
    (known_names : list string) (st en : option datetime)
    (filtered : list value) :
  json_loads raw = Ok data ->
  surviving fromisoformat data known_names st en = Ok filtered ->
  parse_transcriptions json_loads fromisoformat py_str raw known_names st en
  = Ok (String.concat newline (spec_lines py_str known_names filtered)).
Proof.
  intros Hloads Hrun.
  pose proof (surviving_allowed data known_names st en filtered Hrun)
    as Hallowed.
  destruct (surviving_dict data known_names st en filtered Hrun)
    as [fields ->].
  unfold parse_transcriptions, parse_transcriptions_run.
  rewrite Hloads. simpl rbind. unfold parse_decoded.
  rewrite Hrun. simpl rbind.
  rewrite (dialog_loop_allowed known_names filtered [] Hallowed).
  simpl.
  destruct (dict_get "roomId" fields) as [rid | ] eqn:Hrid; simpl;
    [ | reflexivity].
  destruct (py_truthy rid); reflexivity.
Qed.

(** An exception of the first loop is the exception of the function. *)
Lemma parse_of_raise (raw : string) (data : value)
    (known_names : list string) (st en : option datetime) (e : exn) :
  json_loads raw = Ok data ->
  surviving fromisoformat data known_names st en = Raise e ->
  parse_transcriptions json_loads fromisoformat py_str raw known_names st en
  = Raise e.
Proof.
  intros Hloads Hrun.
  unfold parse_transcriptions, parse_transcriptions_run.
  rewrite Hloads. simpl rbind. unfold parse_decoded.
  rewrite Hrun. reflexivity.
Qed.

End NormaliserRun.

(* ================================================================== *)
(** * Properties of [parse_transcriptions] *)

(** C7.  Without a time window, for every payload that is an object whose
    [transcriptions] (if present) is a list of objects, and for every
    allow-list, [parse_transcriptions] returns the newline-joined lines
    ["<participantName>: <text>"], one per entry whose participant name
    equals a member of the allow-list as a string, in payload order. *)
Theorem parse_transcriptions_allow_list :
  forall (json_loads : string -> result value)
         (fromisoformat : string -> option datetime)
         (py_str : value -> string)
         (raw : string) (fields : dict) (ts : list value)
         (known_names : list string),
    json_loads raw = Ok (PyDict fields) ->
    transcriptions_of fields ts ->
    Forall (fun t => is_dict t = true) ts ->
    parse_transcriptions json_loads fromisoformat py_str raw known_names
      None None
    = Ok (String.concat newline (spec_lines py_str known_names ts))
    /\ (forall s, existsb (String.eqb s) known_names = true
                  <-> In s known_names).
Proof.
  intros json_loads fromisoformat py_str raw fields ts known_names
         Hloads Hts Hdicts.
  split; [ | intros s; apply existsb_eqb_In].
  rewrite <- (spec_lines_filter py_str known_names ts).
  apply (parse_of_surviving json_loads fromisoformat py_str raw
           (PyDict fields) known_names None None _ Hloads).
  rewrite (surviving_transcriptions fromisoformat fields ts known_names
             None None Hts).
  now rewrite filter_loop_no_window.
Qed.

Lemma parse_transcriptions_allow_list_witness :
  parse_transcriptions (Demo.json_loads Demo.payload_ab) Demo.fromisoformat
    Demo.py_str "payload_ab" ["Alice"] None None
  = Ok "Alice: hi".
Proof.
  refine (proj1 (parse_transcriptions_allow_list
            (Demo.json_loads Demo.payload_ab) Demo.fromisoformat Demo.py_str
            "payload_ab" _ _ ["Alice"] eq_refl (or_introl eq_refl) _)).
  repeat constructor.
Defined.

(** C2, as the code has it.  The second loop would put the placeholder
    in the place of a missing participant name, but no entry without a
    name reaches it: every entry the first loop lets through carries a
    participant name that is a string on the allow-list, and is rendered
    under that name. *)
Theorem missing_name_never_rendered :
  forall (fromisoformat : string -> option datetime)
         (py_str : value -> string)
         (data : value) (known_names : list string)
         (start_time end_time : option datetime) (filtered : list value),
    surviving fromisoformat data known_names start_time end_time
    = Ok filtered ->
    (forall t, In t filtered ->
       exists s, participant_name t = Some s
                 /\ In s known_names
                 /\ render_line py_str t
                    = Ok (s ++ ": " ++ text_of py_str t))
    /\ (forall d, dict_get "participantName" d = None ->
          render_line py_str (PyDict d)
          = Ok (placeholder ++ ": " ++ text_of py_str (PyDict d))).
Proof.
  intros fromisoformat py_str data known_names st en filtered Hrun.
  split; [ | apply render_line_placeholder].
  intros t Hin.
  pose proof (surviving_allowed fromisoformat data known_names st en
                filtered Hrun) as Hall.
  rewrite Forall_forall in Hall. specialize (Hall t Hin).
  destruct (render_line_allowed py_str known_names t Hall)
    as [s [Hname Hline]].
  exists s. repeat split; try assumption.
  apply existsb_eqb_In. unfold allowed in Hall. now rewrite Hname in Hall.
Qed.

Lemma missing_name_never_rendered_witness :
  surviving Demo.fromisoformat Demo.payload_gaps ["Alice"] None None
  = Ok [PyDict [("participantName", PyStr "Alice");
                ("createdAt", PyStr "2025-10-07T11:00:00Z")];
        PyDict [("participantName", PyStr "Alice"); ("text", PyStr "late")]]
  /\ (forall t,
        In t [PyDict [("participantName", PyStr "Alice");
                      ("createdAt", PyStr "2025-10-07T11:00:00Z")];
              PyDict [("participantName", PyStr "Alice");
                      ("text", PyStr "late")]] ->
        exists s, participant_name t = Some s
                  /\ In s ["Alice"]
                  /\ render_line Demo.py_str t
                     = Ok (s ++ ": " ++ text_of Demo.py_str t)).
Proof.
  split; [reflexivity | ].
  exact (proj1 (missing_name_never_rendered Demo.fromisoformat Demo.py_str
                  Demo.payload_gaps ["Alice"] None None _ eq_refl)).
Defined.

(** C2, as the specification states it, fails: there is no payload,
    allow-list and window for which an entry without a participant name
    reaches the rendering step, so no output line owes its name to the
    placeholder. *)
Lemma missing_name_placeholder_counterexample :
  ~ (exists (fromisoformat : string -> option datetime)
            (data : value) (known_names : list string)
            (start_time end_time : option datetime)
            (filtered : list value) (t : value),
        surviving fromisoformat data known_names start_time end_time
        = Ok filtered
        /\ In t filtered /\ name_missing t).
Proof.
  intros [fromisoformat [data [known_names [st [en [filtered [t
            [Hrun [Hin [d [-> Hmissing]]]]]]]]]]].
  pose proof (surviving_allowed fromisoformat data known_names st en
                filtered Hrun) as Hall.
  rewrite Forall_forall in Hall. specialize (Hall _ Hin).
  unfold allowed, participant_name in Hall. rewrite Hmissing in Hall.
  discriminate Hall.
Qed.

(** C10.  An entry that survives the first loop and has no [text] field
    is rendered as its participant name, a colon and a space, and nothing
    after them; the output has that line at the entry's place among the
    lines of the other surviving entries. *)
Theorem parse_transcriptions_missing_text :
  forall (json_loads : string -> result value)
         (fromisoformat : string -> option datetime)
         (py_str : value -> string)
         (raw : string) (data : value) (known_names : list string)
         (start_time end_time : option datetime)
         (before after : list value) (d : dict),
    json_loads raw = Ok data ->
    surviving fromisoformat data known_names start_time end_time
    = Ok (before ++ PyDict d :: after)%list ->
    dict_get "text" d = None ->
    exists (s : string) (lines_before lines_after : list string),
      dict_get "participantName" d = Some (PyStr s)
      /\ render_line py_str (PyDict d) = Ok (s ++ ": ")
      /\ List.length lines_before = List.length before
      /\ List.length lines_after = List.length after
      /\ parse_transcriptions json_loads fromisoformat py_str raw
           known_names start_time end_time
         = Ok (String.concat newline
                 (lines_before ++ (s ++ ": ")%string :: lines_after)%list).
Proof.
  intros json_loads fromisoformat py_str raw data known_names st en
         before after d Hloads Hrun Htext.
  pose proof (surviving_allowed fromisoformat data known_names st en _ Hrun)
    as Hall.
  apply Forall_app in Hall. destruct Hall as [Hbefore Hrest].
  inversion Hrest as [ | t' rest' Hd Hafter]; subst.
  destruct (allowed_inv known_names (PyDict d) Hd)
    as [d' [s [Heq [Hname _]]]].
  injection Heq as <-.
  assert (Hline : text_of py_str (PyDict d) = EmptyString).
  { unfold text_of. now rewrite Htext. }
  exists s, (spec_lines py_str known_names before),
         (spec_lines py_str known_names after).
  split; [exact Hname | ].
  split.
  { destruct (render_line_allowed py_str known_names (PyDict d) Hd)
      as [s' [Hname' Hrender]].
    unfold participant_name in Hname'. rewrite Hname in Hname'.
    injection Hname' as <-. rewrite Hrender, Hline. reflexivity. }
  split; [now apply spec_lines_length | ].
  split; [now apply spec_lines_length | ].
  rewrite (parse_of_surviving json_loads fromisoformat py_str raw data
             known_names st en _ Hloads Hrun).
  rewrite spec_lines_app.
  rewrite (spec_lines_allowed py_str known_names (PyDict d) s after Hd).
  - rewrite Hline. reflexivity.
  - unfold participant_name. now rewrite Hname.
Qed.

Lemma parse_transcriptions_missing_text_witness :
  exists (s : string) (lines_before lines_after : list string),
    dict_get "participantName"
      [("participantName", PyStr "Alice");
       ("createdAt", PyStr "2025-10-07T11:00:00Z")] = Some (PyStr s)
    /\ render_line Demo.py_str
         (PyDict [("participantName", PyStr "Alice");
                  ("createdAt", PyStr "2025-10-07T11:00:00Z")])
       = Ok (s ++ ": ")
    /\ List.length lines_before = 0%nat
    /\ List.length lines_after = 1%nat
    /\ parse_transcriptions (Demo.json_loads Demo.payload_gaps)
         Demo.fromisoformat Demo.py_str "payload_gaps" ["Alice"] None None
       = Ok (String.concat newline
               (lines_before ++ (s ++ ": ")%string :: lines_after)%list).
Proof.
  exact (parse_transcriptions_missing_text
           (Demo.json_loads Demo.payload_gaps) Demo.fromisoformat Demo.py_str
           "payload_gaps" Demo.payload_gaps ["Alice"] None None
           []
           [PyDict [("participantName", PyStr "Alice");
                    ("text", PyStr "late")]]
           [("participantName", PyStr "Alice");
            ("createdAt", PyStr "2025-10-07T11:00:00Z")]
           eq_refl eq_refl eq_refl).
Defined.

(** Entries off the allow-list leave the list of survivors as it was. *)
Lemma filter_loop_none_allowed (fromisoformat : string -> option datetime)
    (known_names : list string) (st en : option datetime) (ts : list value) :
  Forall (fun t => is_dict t = true /\ allowed known_names t = false) ts ->
  forall filtered,
    filter_loop fromisoformat known_names st en ts filtered = Ok filtered.
Proof.
  induction 1 as [ | t rest [Hdict Hout] _ IH]; intros acc.
  - reflexivity.
  - apply is_dict_inv in Hdict. destruct Hdict as [d ->].
    simpl filter_loop. rewrite py_in_allowed, Hout. simpl. apply IH.
Qed.

(** C8.  A payload without a [transcriptions] key is read as one with an
    empty list, and whenever the first loop ends with no surviving entry
    (none listed, or every entry off the allow-list, or all outside the
    window) the function returns the empty string and raises nothing. *)
Theorem parse_transcriptions_empty :
  forall (json_loads : string -> result value)
         (fromisoformat : string -> option datetime)
         (py_str : value -> string)
         (raw : string) (fields : dict) (known_names : list string)
         (start_time end_time : option datetime),
    json_loads raw = Ok (PyDict fields) ->
    let out :=
      parse_transcriptions json_loads fromisoformat py_str raw known_names
        start_time end_time in
    (dict_get "transcriptions" fields = None ->
       surviving fromisoformat (PyDict fields) known_names start_time end_time
       = Ok []
       /\ out = Ok EmptyString)
    /\ (surviving fromisoformat (PyDict fields) known_names start_time
          end_time = Ok [] ->
        out = Ok EmptyString)
    /\ (forall ts,
          dict_get "transcriptions" fields = Some (PyList ts) ->
          Forall (fun t => is_dict t = true /\ allowed known_names t = false)
                 ts ->
          out = Ok EmptyString).
Proof.
  intros json_loads fromisoformat py_str raw fields known_names st en
         Hloads out.
  assert (Hnone : surviving fromisoformat (PyDict fields) known_names st en
                  = Ok [] -> out = Ok EmptyString).
  { intros Hrun.
    exact (parse_of_surviving json_loads fromisoformat py_str raw
             (PyDict fields) known_names st en [] Hloads Hrun). }
  split; [ | split; [exact Hnone | ]].
  - intros Habsent.
    assert (Hrun : surviving fromisoformat (PyDict fields) known_names st en
                   = Ok []).
    { unfold surviving. simpl. rewrite Habsent. reflexivity. }
    split; [exact Hrun | exact (Hnone Hrun)].
  - intros ts Hts Hall. apply Hnone.
    unfold surviving. simpl. rewrite Hts. simpl.
    apply filter_loop_none_allowed. exact Hall.
Qed.

Lemma parse_transcriptions_empty_witness :
  parse_transcriptions (Demo.json_loads Demo.payload_bare) Demo.fromisoformat
    Demo.py_str "payload_bare" ["Alice"] None (Some (Demo.at_naive 15 30))
  = Ok EmptyString
  /\ parse_transcriptions (Demo.json_loads Demo.payload_ab) Demo.fromisoformat
       Demo.py_str "payload_ab" ["Carol"] None None
     = Ok EmptyString.
Proof.
  split.
  - destruct (parse_transcriptions_empty
                (Demo.json_loads Demo.payload_bare) Demo.fromisoformat
                Demo.py_str "payload_bare" _ ["Alice"] None
                (Some (Demo.at_naive 15 30)) eq_refl) as [Habsent _].
    exact (proj2 (Habsent eq_refl)).
  - destruct (parse_transcriptions_empty
                (Demo.json_loads Demo.payload_ab) Demo.fromisoformat
                Demo.py_str "payload_ab" _ ["Carol"] None None eq_refl)
      as [_ [_ Hnone]].
    apply (Hnone _ eq_refl). repeat constructor.
Defined.

(** C9.  When [start_time] or [end_time] is given, [createdAt] is read of
    every allow-listed entry the loop reaches: if the list holds an
    allow-listed entry whose [createdAt] is absent, not a string or not an
    ISO timestamp, the call raises an exception; the entry is neither
    dropped nor rendered. *)
Theorem parse_transcriptions_unreadable_created_at :
  forall (json_loads : string -> result value)
         (fromisoformat : string -> option datetime)
         (py_str : value -> string)
         (raw : string) (fields : dict) (ts : list value)
         (known_names : list string) (start_time end_time : option datetime),
    json_loads raw = Ok (PyDict fields) ->
    dict_get "transcriptions" fields = Some (PyList ts) ->
    is_some start_time || is_some end_time = true ->
    Exists (fun t => allowed known_names t = true
                     /\ created_at_unreadable fromisoformat t) ts ->
    exists e,
      parse_transcriptions json_loads fromisoformat py_str raw known_names
        start_time end_time = Raise e.
Proof.
  intros json_loads fromisoformat py_str raw fields ts known_names st en
         Hloads Hts Hwindow Hbad.
  destruct (filter_loop_unreadable fromisoformat known_names ts st en []
              Hwindow Hbad) as [e Hraise].
  exists e.
  apply (parse_of_raise json_loads fromisoformat py_str raw (PyDict fields)
           known_names st en e Hloads).
  unfold surviving. simpl. rewrite Hts. exact Hraise.
Qed.

Lemma parse_transcriptions_unreadable_created_at_witness :
  parse_transcriptions (Demo.json_loads Demo.payload_gaps) Demo.fromisoformat
    Demo.py_str "payload_gaps" ["Alice"] None (Some (Demo.at_naive 15 30))
  = Raise (KeyError "createdAt")
  /\ exists e,
       parse_transcriptions (Demo.json_loads Demo.payload_gaps)
         Demo.fromisoformat Demo.py_str "payload_gaps" ["Alice"] None
         (Some (Demo.at_naive 15 30)) = Raise e.
Proof.
  split; [reflexivity | ].
  apply (parse_transcriptions_unreadable_created_at
           (Demo.json_loads Demo.payload_gaps) Demo.fromisoformat Demo.py_str
           "payload_gaps" _ _ ["Alice"] None (Some (Demo.at_naive 15 30))
           eq_refl eq_refl eq_refl).
  apply Exists_cons_tl, Exists_cons_tl, Exists_cons_hd.
  split; [reflexivity | ].
  eexists. split; [reflexivity | exact I].
Defined.

(** C6.  For a payload whose entries are objects and whose allow-listed
    entries carry a [createdAt] with an offset, and for bounds that can be
    converted to UTC, the first loop keeps exactly the allow-listed entries
    whose instant lies between the instants of the bounds, both ends
    included; the instant of a bound is its wall-clock reading minus its
    own offset if it has one and minus three hours if it has none; the
    output is the rendering of the kept entries. *)
Theorem parse_transcriptions_window :
  forall (json_loads : string -> result value)
         (fromisoformat : string -> option datetime)
         (py_str : value -> string)
         (raw : string) (fields : dict) (ts : list value)
         (known_names : list string) (start_time end_time : option datetime),
    json_loads raw = Ok (PyDict fields) ->
    transcriptions_of fields ts ->
    bound_ok start_time -> bound_ok end_time ->
    Forall (timed_entry fromisoformat known_names) ts ->
    let survivors :=
      filter (kept fromisoformat known_names start_time end_time) ts in
    surviving fromisoformat (PyDict fields) known_names start_time end_time
    = Ok survivors
    /\ parse_transcriptions json_loads fromisoformat py_str raw known_names
         start_time end_time
       = Ok (String.concat newline (spec_lines py_str known_names survivors))
    /\ (forall t,
          In t survivors
          <-> In t ts
              /\ allowed known_names t = true
              /\ exists c,
                   created_instant fromisoformat t = Some c
                   /\ (forall s, start_time = Some s -> bound_instant s <= c)
                   /\ (forall e, end_time = Some e -> c <= bound_instant e))
    /\ (forall b, tzoffset b = None ->
                  bound_instant b = civil b - 3 * hour_us)
    /\ (forall b off, tzoffset b = Some off ->
                      bound_instant b = civil b - off).
Proof.
  intros json_loads fromisoformat py_str raw fields ts known_names st en
         Hloads Hts Hst Hen Htimed survivors.
  assert (Hrun : surviving fromisoformat (PyDict fields) known_names st en
                 = Ok survivors).
  { rewrite (surviving_transcriptions fromisoformat fields ts known_names
               st en Hts).
    now rewrite filter_loop_window. }
  split; [exact Hrun | ].
  split.
  { exact (parse_of_surviving json_loads fromisoformat py_str raw
             (PyDict fields) known_names st en survivors Hloads Hrun). }
  split.
  { intros t. unfold survivors. rewrite filter_In. unfold kept, in_window.
    split.
    - intros [Hin Hkept].
      apply andb_prop in Hkept. destruct Hkept as [Hallowed Hwin].
      destruct (created_instant fromisoformat t) as [c | ];
        [ | discriminate Hwin].
      apply andb_prop in Hwin. destruct Hwin as [Hlo Hhi].
      repeat split; try assumption.
      exists c. split; [reflexivity | ].
      split; intros b ->; now apply Z.leb_le.
    - intros [Hin [Hallowed [c [Hc [Hlo Hhi]]]]].
      split; [exact Hin | ].
      rewrite Hallowed, Hc. simpl. apply andb_true_intro. split.
      + destruct st as [s | ]; [ | reflexivity].
        apply Z.leb_le. now apply Hlo.
      + destruct en as [e | ]; [ | reflexivity].
        apply Z.leb_le. now apply Hhi. }
  split.
  - intros b Hnaive. unfold bound_instant, msk_timezone. now rewrite Hnaive.
  - intros b off Haware. unfold bound_instant. now rewrite Haware.
Qed.

Lemma parse_transcriptions_window_witness :
  parse_transcriptions (Demo.json_loads Demo.payload_hours)
    Demo.fromisoformat Demo.py_str "payload_hours" ["Alice"]
    (Some (Demo.at_naive 14 30)) (Some (Demo.at_naive 15 30))
  = Ok "Alice: three"
  /\ parse_transcriptions (Demo.json_loads Demo.payload_hours)
       Demo.fromisoformat Demo.py_str "payload_hours" ["Alice"]
       (Some (Demo.at_naive 14 0)) (Some (Demo.at_utc 12 0))
     = Ok (String.concat newline ["Alice: two"; "Alice: three"]).
Proof.
  assert (Htimed : Forall (timed_entry Demo.fromisoformat ["Alice"])
            [Demo.entry "Alice" "two" "2025-10-07T11:00:00Z";
             Demo.entry "Alice" "three" "2025-10-07T12:00:00Z";
             Demo.entry "Alice" "four" "2025-10-07T13:00:00Z"]).
  { repeat constructor; discriminate. }
  split.
  - exact (proj1 (proj2 (parse_transcriptions_window
             (Demo.json_loads Demo.payload_hours) Demo.fromisoformat
             Demo.py_str "payload_hours" _ _ ["Alice"]
             (Some (Demo.at_naive 14 30)) (Some (Demo.at_naive 15 30))
             eq_refl (or_introl eq_refl) eq_refl eq_refl Htimed))).
  - exact (proj1 (proj2 (parse_transcriptions_window
             (Demo.json_loads Demo.payload_hours) Demo.fromisoformat
             Demo.py_str "payload_hours" _ _ ["Alice"]
             (Some (Demo.at_naive 14 0)) (Some (Demo.at_utc 12 0))
             eq_refl (or_introl eq_refl) eq_refl eq_refl Htimed))).
Defined.

(* ================================================================== *)
(** * The client: traces of the token cache and of room creation *)

Lemma observe_app (a b : list event) :
  observe (a ++ b) = (observe a ++ observe b)%list.
Proof. unfold observe. apply flat_map_app. Qed.

Lemma room_label_inj (i j : nat) : room_label i = room_label j -> i = j.
Proof.
  unfold room_label. simpl. intros H. injection H as H.
  assert (Hd : Some (Nat.to_uint (i + 1)) = Some (Nat.to_uint (j + 1))).
  { rewrite <- !NilEmpty.usu. now rewrite H. }
  injection Hd as Hd. apply Unsigned.to_uint_inj in Hd. lia.
Qed.

Lemma dict_set_fresh (k : string) (v : value) (d : dict) :
  ~ In k (map fst d) -> dict_set k v d = (d ++ [(k, v)])%list.
Proof.
  induction d as [ | [k' v'] rest IH]; simpl; intros Hfresh.
  - reflexivity.
  - destruct (String.eqb_spec k k') as [-> | _].
    + exfalso. apply Hfresh. now left.
    + rewrite IH; [reflexivity | ]. intros Hin. apply Hfresh. now right.
Qed.

(** Assignments under distinct new keys append in order. *)
Lemma dict_set_all_fresh (kvs : list (string * value)) :
  forall rooms,
    NoDup (map fst (rooms ++ kvs)) ->
    dict_set_all kvs rooms = (rooms ++ kvs)%list.
Proof.
  unfold dict_set_all.
  induction kvs as [ | [k v] rest IH]; intros rooms Hnodup; simpl.
  - now rewrite app_nil_r.
  - assert (Hfresh : ~ In k (map fst rooms)).
    { rewrite map_app in Hnodup. simpl in Hnodup.
      apply NoDup_remove_2 in Hnodup. intros Hin. apply Hnodup.
      apply in_or_app. now left. }
    rewrite (dict_set_fresh k v rooms Hfresh).
    rewrite IH.
    + now rewrite <- app_assoc.
    + now rewrite <- app_assoc.
Qed.

Lemma room_labels_NoDup (a n : nat) : NoDup (map room_label (seq a n)).
Proof.
  revert a. induction n as [ | n IH]; intros a; simpl; constructor.
  - rewrite in_map_iff. intros [j [Heq Hin]].
    apply room_label_inj in Heq. subst j.
    apply in_seq in Hin. lia.
  - apply IH.
Qed.

Lemma firstn_seq_le (k : nat) :
  forall a n, (k <= n)%nat -> firstn k (seq a n) = seq a k.
Proof.
  induction k as [ | k IH]; intros a n Hle; [reflexivity | ].
  destruct n as [ | n]; [lia | ].
  simpl. f_equal. apply IH. lia.
Qed.

Lemma rounds_sleeps (rooms : list (string * value)) :
  List.length (filter is_sleep (flat_map round rooms)) = List.length rooms.
Proof. induction rooms as [ | kv rest IH]; simpl; [ | rewrite IH]; reflexivity. Qed.

Lemma rounds_creates (rooms : list (string * value)) :
  List.length (filter is_create (flat_map round rooms)) = List.length rooms.
Proof. induction rooms as [ | kv rest IH]; simpl; [ | rewrite IH]; reflexivity. Qed.

Lemma rounds_writes (rooms : list (string * value)) :
  filter is_write (flat_map round rooms) = [].
Proof. induction rooms as [ | kv rest IH]; simpl; [ | rewrite IH]; reflexivity. Qed.

Section ClientFacts.

Variable remote : list event -> request -> reply.
Variable fs_write : list event -> string -> dict -> option exn.
Variable jwt_encode : jwt_header -> jwt_payload -> string.
Variable uuid4 : list event -> string.
Variable utcnow : float -> datetime.
Variable py_str : value -> string.

(** The token cache adds nothing to a trace but token exchanges. *)
Lemma get_access_token_trace (w : world) :
  exists tr',
    trace (snd (_get_access_token remote jwt_encode uuid4 utcnow w))
    = (trace w ++ tr')%list
    /\ observe tr' = [].
Proof.
  unfold _get_access_token.
  destruct (token_is_fresh w).
  - exists []. simpl. now rewrite app_nil_r.
  - set (rq := login_request (transport_token_of jwt_encode uuid4 utcnow w)).
    exists [ENet rq (remote (trace w) rq)].
    split; [ | reflexivity].
    unfold bind, http, lift.
    destruct (reply_outcome (remote (trace w) rq)) as [e | status body];
      [reflexivity | ].
    simpl snd. destruct body as [data | e]; [ | reflexivity].
    destruct (py_getitem data "token"); reflexivity.
Qed.

(** One [create_room] call: at most one creation request, carrying the
    title, and on success the body that came back. *)
Lemma create_room_trace (room_title : string) (w : world) :
  exists tr',
    trace (snd (create_room remote jwt_encode uuid4 utcnow py_str
                  room_title w))
    = (trace w ++ tr')%list
    /\ match fst (create_room remote jwt_encode uuid4 utcnow py_str
                    room_title w) with
       | Ok data =>
           observe tr' = [OCreate (PyStr room_title) (data_room_url data)]
       | Raise _ =>
           observe tr' = []
           \/ exists ou, observe tr' = [OCreate (PyStr room_title) ou]
       end.
Proof.
  unfold create_room, bind.
  destruct (get_access_token_trace w) as [tr1 [Htr1 Hobs1]].
  destruct (_get_access_token remote jwt_encode uuid4 utcnow w)
    as [[token | e] w1]; simpl in Htr1.
  2: { exists tr1. simpl. split; [exact Htr1 | now left]. }
  unfold http, lift.
  set (rq := create_request py_str token room_title).
  set (rp := remote (trace w1) rq).
  assert (Hobs : observe (tr1 ++ [ENet rq rp])
                 = [OCreate (PyStr room_title) (room_url_of rp)]).
  { rewrite observe_app, Hobs1. reflexivity. }
  exists (tr1 ++ [ENet rq rp])%list.
  rewrite Hobs. unfold room_url_of.
  destruct (reply_outcome rp) as [e | status [data | e]]; simpl;
    rewrite Htr1, <- app_assoc; (split; [reflexivity | ]).
  - right. eexists. reflexivity.
  - destruct data; reflexivity.
  - right. eexists. reflexivity.
Qed.

Lemma py_getitem_room_url (data url : value) :
  py_getitem data "roomUrl" = Ok url -> data_room_url data = Some url.
Proof.
  destruct data as [ | | | | | | d]; simpl; try discriminate.
  destruct (dict_get "roomUrl" d); [ | discriminate].
  intros H. now inversion H.
Qed.

(** One round of the loop, the binds spelled out. *)
Lemma create_rooms_loop_cons (i : nat) (rest : list nat) (rooms : dict)
    (w : world) :
  create_rooms_loop remote jwt_encode uuid4 utcnow py_str (i :: rest) rooms w
  = match create_room remote jwt_encode uuid4 utcnow py_str
            (room_label i) w with
    | (Raise e, w1) => (Raise e, w1)
    | (Ok room_data, w1) =>
        match py_getitem room_data "roomId" with
        | Raise e => (Raise e, w1)
        | Ok _ =>
            match py_getitem room_data "roomUrl" with
            | Raise e => (Raise e, w1)
            | Ok room_url =>
                create_rooms_loop remote jwt_encode uuid4 utcnow py_str rest
                  (dict_set (room_label i) room_url rooms)
                  (mkWorld (api w1) (PrimFloat.add (clock w1) 1%float)
                     (trace w1 ++ [ESleep 1%float]))
            end
        end
    end.
Proof.
  simpl create_rooms_loop. unfold bind, lift, sleep.
  destruct (create_room remote jwt_encode uuid4 utcnow py_str
              (room_label i) w) as [[room_data | e] w1]; [ | reflexivity].
  destruct (py_getitem room_data "roomId"); [ | reflexivity].
  destruct (py_getitem room_data "roomUrl"); reflexivity.
Qed.

(** What the provisioning loop leaves in the trace.  [done] lists the
    finished rounds; a loop that raises stops in the round after them,
    before or after its creation request went out. *)
Lemma create_rooms_loop_trace (range : list nat) :
  forall (rooms : dict) (w : world),
    let run := create_rooms_loop remote jwt_encode uuid4 utcnow py_str
                 range rooms w in
    exists (tr' : list event) (done : list (string * value)),
      trace (snd run) = (trace w ++ tr')%list
      /\ match fst run with
         | Ok rooms' =>
             observe tr' = flat_map round done
             /\ map fst done = map room_label range
             /\ rooms' = dict_set_all done rooms
         | Raise _ =>
             exists tail,
               observe tr' = (flat_map round done ++ tail)%list
               /\ (List.length done < List.length range)%nat
               /\ map fst done
                  = map room_label (firstn (List.length done) range)
               /\ (tail = []
                   \/ exists ou,
                        tail = [OCreate
                                  (PyStr (room_label
                                            (nth (List.length done) range 0%nat)))
                                  ou])
         end.
Proof.
  induction range as [ | i rest IH]; intros rooms w run.
  - exists [], []. subst run. simpl. rewrite app_nil_r. repeat split.
  - subst run. rewrite create_rooms_loop_cons.
    destruct (create_room_trace (room_label i) w) as [tr1 [Htr1 Hobs1]].
    destruct (create_room remote jwt_encode uuid4 utcnow py_str
                (room_label i) w) as [[data | e] w1];
      simpl fst in Hobs1; simpl snd in Htr1; cbv iota in Hobs1.
    2: { exists tr1, []. simpl. split; [exact Htr1 | ].
         exists (observe tr1). repeat split; [lia | ].
         destruct Hobs1 as [-> | [ou ->]]; [now left | right; now exists ou]. }
    destruct (py_getitem data "roomId") as [room_id | e].
    2: { exists tr1, []. simpl. split; [exact Htr1 | ].
         exists (observe tr1). repeat split; [lia | ].
         right. eexists. exact Hobs1. }
    destruct (py_getitem data "roomUrl") as [room_url | e] eqn:Hurl.
    2: { exists tr1, []. simpl. split; [exact Htr1 | ].
         exists (observe tr1). repeat split; [lia | ].
         right. eexists. exact Hobs1. }
    rewrite (py_getitem_room_url data room_url Hurl) in Hobs1.
    set (w2 := mkWorld (api w1) (PrimFloat.add (clock w1) 1%float)
                 (trace w1 ++ [ESleep 1%float])).
    set (rooms2 := dict_set (room_label i) room_url rooms).
    destruct (IH rooms2 w2) as [tr2 [done2 [Htr2 Hres2]]].
    exists (tr1 ++ ESleep 1%float :: tr2)%list,
           ((room_label i, room_url) :: done2).
    split.
    { rewrite Htr2. unfold w2. simpl trace. rewrite Htr1.
      now rewrite <- !app_assoc. }
    assert (Hobs : forall rest_obs,
               observe tr2 = rest_obs ->
               observe (tr1 ++ ESleep 1%float :: tr2)
               = (round (room_label i, room_url) ++ rest_obs)%list).
    { intros rest_obs <-. rewrite observe_app, Hobs1. reflexivity. }
    destruct (fst (create_rooms_loop remote jwt_encode uuid4 utcnow py_str
                     rest rooms2 w2)) as [rooms' | e].
    + destruct Hres2 as [Hobs2 [Hkeys Hrooms]].
      split; [now apply Hobs | ].
      split; [simpl; now rewrite Hkeys | ].
      exact Hrooms.
    + destruct Hres2 as [tail [Hobs2 [Hlen [Hkeys Htail]]]].
      exists tail.
      split; [rewrite (Hobs _ Hobs2); simpl; reflexivity | ].
      split; [simpl; lia | ].
      split; [simpl; now rewrite Hkeys | ].
      exact Htail.
Qed.

Lemma get_access_token_healthy (w : world) :
  remote_healthy remote ->
  exists token w1,
    _get_access_token remote jwt_encode uuid4 utcnow w = (Ok token, w1).
Proof.
  intros Hhealthy. unfold _get_access_token.
  destruct (token_is_fresh w); [eauto | ].
  set (rq := login_request (transport_token_of jwt_encode uuid4 utcnow w)).
  destruct (proj1 (Hhealthy (trace w) rq) eq_refl)
    as [status [d [tok [Hreply Htok]]]].
  unfold bind, http, lift. rewrite Hreply. simpl. rewrite Htok.
  eexists. eexists. reflexivity.
Qed.

Lemma create_room_healthy (room_title : string) (w : world) :
  remote_healthy remote ->
  exists d rid rurl w1,
    create_room remote jwt_encode uuid4 utcnow py_str room_title w
    = (Ok (PyDict d), w1)
    /\ dict_get "roomId" d = Some rid
    /\ dict_get "roomUrl" d = Some rurl.
Proof.
  intros Hhealthy. unfold create_room, bind at 1.
  destruct (get_access_token_healthy w Hhealthy) as [token [w1 ->]].
  set (rq := create_request py_str token room_title).
  destruct (proj2 (Hhealthy (trace w1) rq) eq_refl)
    as [status [d [rid [rurl [Hreply [Hrid Hrurl]]]]]].
  unfold bind, http, lift. fold rq. rewrite Hreply. simpl.
  exists d, rid, rurl. eexists. repeat split; assumption.
Qed.

(** Against a healthy service the loop runs to its end. *)
Lemma create_rooms_loop_healthy (range : list nat) :
  remote_healthy remote ->
  forall (rooms : dict) (w : world),
    exists rooms' w',
      create_rooms_loop remote jwt_encode uuid4 utcnow py_str range rooms w
      = (Ok rooms', w').
Proof.
  intros Hhealthy.
  induction range as [ | i rest IH]; intros rooms w.
  - simpl. unfold ret. eauto.
  - rewrite create_rooms_loop_cons.
    destruct (create_room_healthy (room_label i) w Hhealthy)
      as [d [rid [rurl [w1 [-> [Hrid Hrurl]]]]]].
    simpl. rewrite Hrid, Hrurl. apply IH.
Qed.

End ClientFacts.

(** A refresh, the binds spelled out. *)
Lemma get_access_token_stale
    (remote : list event -> request -> reply)
    (jwt_encode : jwt_header -> jwt_payload -> string)
    (uuid4 : list event -> string) (utcnow : float -> datetime) (w : world) :
  token_is_fresh w = false ->
  _get_access_token remote jwt_encode uuid4 utcnow w
  = let rq := login_request (transport_token_of jwt_encode uuid4 utcnow w) in
    let rp := remote (trace w) rq in
    let w1 := mkWorld (api w) (PrimFloat.add (clock w) (latency rp))
                (trace w ++ [ENet rq rp]) in
    match reply_outcome rp with
    | NetFail e => (Raise e, w1)
    | Http _ (Raise e) => (Raise e, w1)
    | Http _ (Ok data) =>
        match py_getitem data "token" with
        | Raise e => (Raise e, w1)
        | Ok token =>
            (Ok token,
             mkWorld (mkApi (project_id (api w)) (key_id (api w)) token
                        (PrimFloat.add (clock w1) 3600%float))
                     (clock w1) (trace w1))
        end
    end.
Proof.
  intros Hguard. unfold _get_access_token. rewrite Hguard.
  unfold bind, http, lift.
  destruct (reply_outcome
              (remote (trace w)
                 (login_request (transport_token_of jwt_encode uuid4 utcnow w))))
    as [e | status [data | e]]; try reflexivity.
Qed.

(* ================================================================== *)
(** * Properties of the token cache *)

(** C4.  When the token slot holds a token (a value the test of line 25
    takes as true) and the clock reads strictly less than the recorded
    expiry, [_get_access_token] returns the slot's value and leaves the
    world as it was: no request is added to the trace, and the slot and
    its expiry are unchanged. *)
Theorem get_access_token_cached :
  forall (remote : list event -> request -> reply)
         (jwt_encode : jwt_header -> jwt_payload -> string)
         (uuid4 : list event -> string) (utcnow : float -> datetime)
         (w : world),
    py_truthy (access_token (api w)) = true ->
    PrimFloat.ltb (clock w) (token_expires (api w)) = true ->
    _get_access_token remote jwt_encode uuid4 utcnow w
    = (Ok (access_token (api w)), w).
Proof.
  intros remote jwt_encode uuid4 utcnow w Htoken Hfresh.
  unfold _get_access_token, token_is_fresh.
  now rewrite Htoken, Hfresh.
Qed.

Lemma get_access_token_cached_witness :
  _get_access_token Demo.remote Demo.jwt_encode Demo.uuid4 Demo.utcnow
    Demo.w_cached
  = (Ok (PyStr "access-0"), Demo.w_cached)
  /\ trace Demo.w_cached = [].
Proof.
  split; [ | reflexivity].
  exact (get_access_token_cached Demo.remote Demo.jwt_encode Demo.uuid4
           Demo.utcnow Demo.w_cached eq_refl eq_refl).
Defined.

(** C5.  When the slot holds no token, or the clock does not read
    strictly less than the recorded expiry, [_get_access_token] sends
    exactly one request, the token exchange; and when that is answered
    with a body that has a [token], the call stores it in the slot, sets
    the expiry to the clock reading it takes at that moment plus 3600,
    whatever the token and the body contain, and returns the token. *)
Theorem get_access_token_refresh :
  forall (remote : list event -> request -> reply)
         (jwt_encode : jwt_header -> jwt_payload -> string)
         (uuid4 : list event -> string) (utcnow : float -> datetime)
         (w : world),
    py_truthy (access_token (api w)) = false
    \/ PrimFloat.ltb (clock w) (token_expires (api w)) = false ->
    let rq := login_request (transport_token_of jwt_encode uuid4 utcnow w) in
    let rp := remote (trace w) rq in
    let run := _get_access_token remote jwt_encode uuid4 utcnow w in
    trace (snd run) = (trace w ++ [ENet rq rp])%list
    /\ clock (snd run) = PrimFloat.add (clock w) (latency rp)
    /\ forall status data token,
         reply_outcome rp = Http status (Ok data) ->
         py_getitem data "token" = Ok token ->
         fst run = Ok token
         /\ access_token (api (snd run)) = token
         /\ token_expires (api (snd run))
            = PrimFloat.add (clock (snd run)) 3600%float
         /\ project_id (api (snd run)) = project_id (api w)
         /\ key_id (api (snd run)) = key_id (api w).
Proof.
  intros remote jwt_encode uuid4 utcnow w Hstale rq rp run.
  assert (Hguard : token_is_fresh w = false).
  { unfold token_is_fresh. destruct Hstale as [-> | ->];
      [reflexivity | apply andb_false_r]. }
  subst run. rewrite (get_access_token_stale _ _ _ _ _ Hguard).
  cbv zeta. fold rq. fold rp.
  destruct (reply_outcome rp) as [e | status [data | e]].
  - split; [reflexivity | split; [reflexivity | ]].
    intros status data token Habs. discriminate Habs.
  - destruct (py_getitem data "token") as [token | e] eqn:Htoken.
    + split; [reflexivity | split; [reflexivity | ]].
      intros status' data' token' Heq Htoken'.
      injection Heq as _ <-. rewrite Htoken in Htoken'.
      injection Htoken' as <-. repeat split.
    + split; [reflexivity | split; [reflexivity | ]].
      intros status' data' token' Heq Htoken'.
      injection Heq as _ <-. rewrite Htoken in Htoken'.
      discriminate Htoken'.
  - split; [reflexivity | split; [reflexivity | ]].
    intros status' data' token' Heq. discriminate Heq.
Qed.

Lemma get_access_token_refresh_witness :
  fst (_get_access_token Demo.remote Demo.jwt_encode Demo.uuid4 Demo.utcnow
         Demo.w_expired)
  = Ok (PyStr "access-1")
  /\ token_expires
       (api (snd (_get_access_token Demo.remote Demo.jwt_encode Demo.uuid4
                    Demo.utcnow Demo.w_expired)))
     = PrimFloat.add (PrimFloat.add 1000%float 0.25%float) 3600%float
  /\ fst (_get_access_token Demo.remote Demo.jwt_encode Demo.uuid4
            Demo.utcnow Demo.w0)
     = Ok (PyStr "access-1").
Proof.
  destruct (get_access_token_refresh Demo.remote Demo.jwt_encode Demo.uuid4
              Demo.utcnow Demo.w_expired (or_intror eq_refl))
    as [_ [Hclock Hexpired]].
  destruct (Hexpired 200 Demo.login_body (PyStr "access-1") eq_refl eq_refl)
    as [Hret [_ [Hexp _]]].
  destruct (get_access_token_refresh Demo.remote Demo.jwt_encode Demo.uuid4
              Demo.utcnow Demo.w0 (or_introl eq_refl))
    as [_ [_ Hnone]].
  destruct (Hnone 200 Demo.login_body (PyStr "access-1") eq_refl eq_refl)
    as [Hret0 _].
  split; [exact Hret | ]. split; [ | exact Hret0].
  rewrite Hexp. rewrite Hclock. reflexivity.
Defined.

(* ================================================================== *)
(** * Properties of [create_rooms] *)

(** C1, as the code has it.  Against a service that answers every token
    exchange and every creation, and with a file that can be written,
    [create_rooms] with a count of [n] sends exactly [n] creation
    requests, titled ["Room #1"] to ["Room #n"] in that order, sleeps one
    second after every one of them, the last included ([n] sleeps), writes
    the mapping once and returns it: a dictionary whose keys are those
    [n] labels, each with the room URL its request was answered with. *)
Theorem create_rooms_paced :
  forall (remote : list event -> request -> reply)
         (fs_write : list event -> string -> dict -> option exn)
         (jwt_encode : jwt_header -> jwt_payload -> string)
         (uuid4 : list event -> string) (utcnow : float -> datetime)
         (py_str : value -> string)
         (count : Z) (save_path : string) (w : world),
    remote_healthy remote ->
    (forall tr path content, fs_write tr path content = None) ->
    exists (rooms : dict) (w' : world) (tr' : list event),
      create_rooms remote fs_write jwt_encode uuid4 utcnow py_str
        count save_path w = (Ok rooms, w')
      /\ trace w' = (trace w ++ tr')%list
      /\ map fst rooms = map room_label (seq 0 (Z.to_nat count))
      /\ observe tr'
         = (flat_map round rooms ++ [OWrite save_path rooms None])%list
      /\ count_creates tr' = Z.to_nat count
      /\ count_sleeps tr' = Z.to_nat count
      /\ count_writes tr' = 1%nat.
Proof.
  intros remote fs_write jwt_encode uuid4 utcnow py_str count save_path w
         Hhealthy Hfs.
  unfold create_rooms, py_range.
  set (range := seq 0 (Z.to_nat count)).
  destruct (create_rooms_loop_healthy remote jwt_encode uuid4 utcnow py_str
              range Hhealthy [] w) as [rooms [w1 Hrun]].
  destruct (create_rooms_loop_trace remote jwt_encode uuid4 utcnow py_str
              range [] w) as [tr1 [done [Htr1 Hres]]].
  rewrite Hrun in Htr1, Hres. simpl in Htr1, Hres.
  destruct Hres as [Hobs [Hkeys Hrooms]].
  assert (Hdone : rooms = done).
  { rewrite Hrooms. apply (dict_set_all_fresh done []). simpl.
    rewrite Hkeys. apply room_labels_NoDup. }
  subst done.
  assert (Hlen : List.length rooms = Z.to_nat count).
  { rewrite <- (length_map fst rooms), Hkeys, length_map. apply length_seq. }
  exists rooms,
    (mkWorld (api w1) (clock w1)
       (trace w1 ++ [EWrite save_path rooms None])),
    (tr1 ++ [EWrite save_path rooms None])%list.
  assert (Hobs' : observe (tr1 ++ [EWrite save_path rooms None])
                  = (flat_map round rooms
                     ++ [OWrite save_path rooms None])%list).
  { rewrite observe_app, Hobs. reflexivity. }
  split.
  { unfold bind at 1. rewrite Hrun. unfold bind, write_json, ret.
    rewrite Hfs. reflexivity. }
  split; [simpl; now rewrite Htr1, <- app_assoc | ].
  split; [exact Hkeys | ].
  split; [exact Hobs' | ].
  unfold count_creates, count_sleeps, count_writes. rewrite Hobs'.
  rewrite !filter_app, !length_app, rounds_creates, rounds_sleeps,
    rounds_writes.
  simpl. lia.
Qed.

Lemma demo_remote_healthy : remote_healthy Demo.remote.
Proof.
  intros tr rq. unfold Demo.remote. simpl. split; intros Hurl; rewrite Hurl.
  - exists 200, [("token", PyStr "access-1")], (PyStr "access-1").
    split; reflexivity.
  - exists 200,
      [("roomId", PyStr "abc123");
       ("roomUrl", PyStr "https://salutejazz.ru/abc123?psw=z")],
      (PyStr "abc123"), (PyStr "https://salutejazz.ru/abc123?psw=z").
    repeat split; reflexivity.
Qed.

Lemma create_rooms_paced_witness :
  exists (rooms : dict) (w' : world) (tr' : list event),
    create_rooms Demo.remote Demo.fs_write Demo.jwt_encode Demo.uuid4
      Demo.utcnow Demo.py_str 3 "jazz_rooms.json" Demo.w0 = (Ok rooms, w')
    /\ trace w' = (trace Demo.w0 ++ tr')%list
    /\ map fst rooms = ["Room #1"; "Room #2"; "Room #3"]
    /\ observe tr'
       = (flat_map round rooms ++ [OWrite "jazz_rooms.json" rooms None])%list
    /\ count_creates tr' = 3%nat
    /\ count_sleeps tr' = 3%nat
    /\ count_writes tr' = 1%nat.
Proof.
  exact (create_rooms_paced Demo.remote Demo.fs_write Demo.jwt_encode
           Demo.uuid4 Demo.utcnow Demo.py_str 3 "jazz_rooms.json" Demo.w0
           demo_remote_healthy (fun _ _ _ => eq_refl)).
Defined.

(** C1, as the specification states it, fails: with a count of 3 the
    code sleeps three times, not two; the last sleep comes after the
    final room and before the mapping is written. *)
Lemma create_rooms_final_sleep_counterexample :
  ~ (count_sleeps
       (trace (snd (create_rooms Demo.remote Demo.fs_write Demo.jwt_encode
                      Demo.uuid4 Demo.utcnow Demo.py_str 3
                      "jazz_rooms.json" Demo.w0)))
     = (3 - 1)%nat).
Proof. vm_compute. discriminate. Qed.

(** C3, as the code has it.  When the loop of [create_rooms] raises an
    exception, whether in a token exchange, in a creation request or in
    reading [roomId] or [roomUrl] from its answer, [create_rooms] raises
    that same exception, unwrapped, and stops there: the mapping is
    never written, the trace holds the finished rounds (creation and
    sleep) of the rooms before and at most the one creation request of
    the failing round, and no other request, so nothing is undone. *)
Theorem create_rooms_failure :
  forall (remote : list event -> request -> reply)
         (fs_write : list event -> string -> dict -> option exn)
         (jwt_encode : jwt_header -> jwt_payload -> string)
         (uuid4 : list event -> string) (utcnow : float -> datetime)
         (py_str : value -> string)
         (count : Z) (save_path : string) (w w' : world) (e : exn),
    create_rooms_loop remote jwt_encode uuid4 utcnow py_str
      (py_range count) [] w = (Raise e, w') ->
    create_rooms remote fs_write jwt_encode uuid4 utcnow py_str
      count save_path w = (Raise e, w')
    /\ exists (tr' : list event) (done : list (string * value))
              (tail : list obs),
         trace w' = (trace w ++ tr')%list
         /\ observe tr' = (flat_map round done ++ tail)%list
         /\ (List.length done < Z.to_nat count)%nat
         /\ map fst done = map room_label (seq 0 (List.length done))
         /\ (tail = []
             \/ exists ou,
                  tail = [OCreate (PyStr (room_label (List.length done)))
                            ou])
         /\ count_writes tr' = 0%nat.
Proof.
  intros remote fs_write jwt_encode uuid4 utcnow py_str count save_path
         w w' e Hrun.
  split.
  { unfold create_rooms, bind at 1. rewrite Hrun. reflexivity. }
  destruct (create_rooms_loop_trace remote jwt_encode uuid4 utcnow py_str
              (py_range count) [] w) as [tr' [done [Htr Hres]]].
  rewrite Hrun in Htr, Hres. simpl in Htr, Hres.
  destruct Hres as [tail [Hobs [Hlen [Hkeys Htail]]]].
  unfold py_range in Hlen, Hkeys, Htail. rewrite length_seq in Hlen.
  exists tr', done, tail.
  split; [exact Htr | ].
  split; [exact Hobs | ].
  split; [exact Hlen | ].
  split.
  { rewrite Hkeys, firstn_seq_le by lia. reflexivity. }
  split.
  { destruct Htail as [-> | [ou ->]]; [now left | right].
    exists ou. rewrite seq_nth by exact Hlen. reflexivity. }
  unfold count_writes. rewrite Hobs, filter_app, rounds_writes.
  destruct Htail as [-> | [ou ->]]; reflexivity.
Qed.

Lemma create_rooms_failure_witness :
  create_rooms Demo.remote_failing_second Demo.fs_write Demo.jwt_encode
    Demo.uuid4 Demo.utcnow Demo.py_str 3 "jazz_rooms.json" Demo.w0
  = (Raise (KeyError "roomId"),
     snd (create_rooms_loop Demo.remote_failing_second Demo.jwt_encode
            Demo.uuid4 Demo.utcnow Demo.py_str (py_range 3) [] Demo.w0)).
Proof.
  exact (proj1 (create_rooms_failure Demo.remote_failing_second Demo.fs_write
                  Demo.jwt_encode Demo.uuid4 Demo.utcnow Demo.py_str 3
                  "jazz_rooms.json" Demo.w0 _ (KeyError "roomId") eq_refl)).
Defined.

(** C3, as the specification states it, fails: when the second creation
    is answered with a body without [roomId], what [create_rooms] raises
    is the [KeyError] of line 162, not a [ProvisioningError]. *)
Lemma create_rooms_provisioning_error_counterexample :
  ~ (exists e,
       fst (create_rooms Demo.remote_failing_second Demo.fs_write
              Demo.jwt_encode Demo.uuid4 Demo.utcnow Demo.py_str 3
              "jazz_rooms.json" Demo.w0) = Raise e
       /\ exn_class e = "ProvisioningError").
Proof.
  intros [e [Hrun Hclass]]. vm_compute in Hrun.
  injection Hrun as <-. discriminate Hclass.
Qed.

(* ================================================================== *)
(** * Room identifiers out of room URLs *)

Lemma split_on_cons (sep : ascii) (s : string) :
  exists p ps, split_on sep s = p :: ps.
Proof.
  induction s as [ | c rest [p [ps IH]]]; simpl.
  - eauto.
  - destruct (Ascii.eqb c sep); [eauto | ]. rewrite IH. eauto.
Qed.

Lemma split_on_absent (sep : ascii) (s : string) :
  occurs sep s = false -> split_on sep s = [s].
Proof.
  induction s as [ | c rest IH]; simpl; [reflexivity | ].
  intros Habsent. apply orb_false_elim in Habsent.
  destruct Habsent as [Hc Hrest]. rewrite Hc, (IH Hrest). reflexivity.
Qed.

Lemma occurs_app (c : ascii) (a b : string) :
  occurs c (a ++ b) = occurs c a || occurs c b.
Proof.
  induction a as [ | c' a IH]; simpl; [reflexivity | ].
  now rewrite IH, orb_assoc.
Qed.

(** A string with the separator in it splits into two pieces or more. *)
Lemma split_on_two (sep : ascii) (pre tail : string) :
  exists p q qs, split_on sep (pre ++ String sep tail) = p :: q :: qs.
Proof.
  induction pre as [ | c pre [p [q [qs IH]]]]; simpl.
  - rewrite Ascii.eqb_refl.
    destruct (split_on_cons sep tail) as [q [qs ->]]. eauto.
  - destruct (Ascii.eqb c sep); rewrite IH; eauto.
Qed.

(** The last piece is what follows the last separator. *)
Lemma last_split_on (sep : ascii) (pre tail : string) :
  occurs sep tail = false ->
  last (split_on sep (pre ++ String sep tail)) EmptyString = tail.
Proof.
  intros Habsent.
  induction pre as [ | c pre IH]; simpl.
  - rewrite Ascii.eqb_refl, (split_on_absent sep tail Habsent). reflexivity.
  - destruct (split_on_two sep pre tail) as [p [q [qs Hsplit]]].
    rewrite Hsplit in *.
    destruct (Ascii.eqb c sep); exact IH.
Qed.

(** The first piece is what precedes the first separator. *)
Lemma hd_split_on (sep : ascii) (id rest : string) :
  occurs sep id = false ->
  hd EmptyString (split_on sep (id ++ String sep rest)) = id.
Proof.
  induction id as [ | c id IH]; simpl.
  - intros _. now rewrite Ascii.eqb_refl.
  - intros Habsent. apply orb_false_elim in Habsent.
    destruct Habsent as [Hc Hid]. rewrite Hc.
    specialize (IH Hid).
    destruct (split_on sep (id ++ String sep rest)) as [ | p ps];
      simpl in *; now subst.
Qed.

(** No piece holds the separator. *)
Lemma split_on_pieces (sep : ascii) (s : string) :
  Forall (fun p => occurs sep p = false) (split_on sep s).
Proof.
  induction s as [ | c rest IH]; simpl.
  - repeat constructor.
  - destruct (Ascii.eqb c sep) eqn:Hc; [now constructor | ].
    destruct (split_on sep rest) as [ | p ps].
    + constructor; [simpl; now rewrite Hc | constructor].
    + inversion IH as [ | p' ps' Hp Hps]; subst.
      constructor; [simpl; now rewrite Hc, Hp | exact Hps].
Qed.

(** Splitting brings no character into a piece that the string lacks. *)
Lemma split_on_keeps_absent (c sep : ascii) (s : string) :
  occurs c s = false ->
  Forall (fun p => occurs c p = false) (split_on sep s).
Proof.
  induction s as [ | c' rest IH]; simpl.
  - intros _. repeat constructor.
  - intros Habsent. apply orb_false_elim in Habsent.
    destruct Habsent as [Hc Hrest]. specialize (IH Hrest).
    destruct (Ascii.eqb c' sep); [now constructor | ].
    destruct (split_on sep rest) as [ | p ps].
    + constructor; [simpl; now rewrite Hc | constructor].
    + inversion IH as [ | p' ps' Hp Hps]; subst.
      constructor; [simpl; now rewrite Hc, Hp | exact Hps].
Qed.

Lemma Forall_last {A : Type} (P : A -> Prop) (l : list A) (d : A) :
  P d -> Forall P l -> P (last l d).
Proof.
  intros Hd. induction 1 as [ | x l Hx Hl IH]; [exact Hd | ].
  simpl. destruct l; [exact Hx | exact IH].
Qed.

Lemma Forall_hd {A : Type} (P : A -> Prop) (l : list A) (d : A) :
  P d -> Forall P l -> P (hd d l).
Proof. intros Hd. destruct 1; simpl; assumption. Qed.

(** X1.  The room identifier of a URL that ends in a slash, an
    identifier and a query string is that identifier: for
    [prefix/id?query] with no slash or question mark in [id] and no slash
    in [query], the extraction gives [id]. *)
Theorem room_id_of_url_with_query :
  forall (prefix id query : string),
    occurs "/"%char id = false ->
    occurs "?"%char id = false ->
    occurs "/"%char query = false ->
    room_id_of_url (prefix ++ "/" ++ id ++ "?" ++ query) = id.
Proof.
  intros prefix id query Hslash Hmark Hquery.
  unfold room_id_of_url. simpl.
  rewrite last_split_on.
  - now apply hd_split_on.
  - rewrite occurs_app. simpl. now rewrite Hslash, Hquery.
Qed.

Lemma room_id_of_url_with_query_witness :
  room_id_of_url "https://x/y/abc123?token=z" = "abc123".
Proof.
  exact (room_id_of_url_with_query "https://x/y" "abc123" "token=z"
           eq_refl eq_refl eq_refl).
Defined.

(** X2.  Without a query the identifier is whatever follows the last
    slash, whatever comes before that slash (a query string with a slash
    in it included): for [prefix/id] with no slash or question mark in
    [id], the extraction gives [id]; a URL that ends in a slash gives the
    empty identifier. *)
Theorem room_id_of_url_last_segment :
  forall (prefix id : string),
    occurs "/"%char id = false ->
    occurs "?"%char id = false ->
    room_id_of_url (prefix ++ "/" ++ id) = id.
Proof.
  intros prefix id Hslash Hmark.
  unfold room_id_of_url. simpl.
  rewrite (last_split_on "/"%char prefix id Hslash).
  now rewrite (split_on_absent "?"%char id Hmark).
Qed.

Lemma room_id_of_url_last_segment_witness :
  room_id_of_url "https://salutejazz.ru/abc123?next=/lobby" = "lobby"
  /\ room_id_of_url "https://salutejazz.ru/abc123/" = EmptyString.
Proof.
  split.
  - exact (room_id_of_url_last_segment "https://salutejazz.ru/abc123?next="
             "lobby" eq_refl eq_refl).
  - exact (room_id_of_url_last_segment "https://salutejazz.ru/abc123"
             EmptyString eq_refl eq_refl).
Defined.

(** X3.  Whatever the URL, the extracted identifier holds neither a
    slash nor a question mark. *)
Theorem room_id_of_url_clean :
  forall (room_url : string),
    occurs "/"%char (room_id_of_url room_url) = false
    /\ occurs "?"%char (room_id_of_url room_url) = false.
Proof.
  intros room_url. unfold room_id_of_url. split.
  - apply (Forall_hd (fun p => occurs "/"%char p = false)); [reflexivity | ].
    apply split_on_keeps_absent.
    apply (Forall_last (fun p => occurs "/"%char p = false));
      [reflexivity | apply split_on_pieces].
  - apply (Forall_hd (fun p => occurs "?"%char p = false)); [reflexivity | ].
    apply split_on_pieces.
Qed.

(* ================================================================== *)
(** * More on the token cache *)

(** X4.  A call of [_get_access_token] that raises leaves the client
    object as it was: the token slot, its expiry, the project id and the
    key id are unchanged, whatever made the exchange fail. *)
Theorem get_access_token_failure_keeps_slot :
  forall (remote : list event -> request -> reply)
         (jwt_encode : jwt_header -> jwt_payload -> string)
         (uuid4 : list event -> string) (utcnow : float -> datetime)
         (w w' : world) (e : exn),
    _get_access_token remote jwt_encode uuid4 utcnow w = (Raise e, w') ->
    api w' = api w.
Proof.
  intros remote jwt_encode uuid4 utcnow w w' e Hrun.
  destruct (token_is_fresh w) eqn:Hguard.
  - unfold _get_access_token in Hrun. rewrite Hguard in Hrun.
    discriminate Hrun.
  - rewrite (get_access_token_stale _ _ _ _ _ Hguard) in Hrun.
    cbv zeta in Hrun.
    destruct (reply_outcome _) as [e1 | status [data | e1]] in Hrun.
    + now inversion Hrun.
    + destruct (py_getitem data "token") in Hrun;
        [discriminate Hrun | now inversion Hrun].
    + now inversion Hrun.
Qed.

Lemma get_access_token_failure_keeps_slot_witness :
  api (snd (_get_access_token DemoOps.remote_no_token Demo.jwt_encode
              Demo.uuid4 Demo.utcnow Demo.w_expired))
  = api Demo.w_expired.
Proof.
  exact (get_access_token_failure_keeps_slot DemoOps.remote_no_token
           Demo.jwt_encode Demo.uuid4 Demo.utcnow Demo.w_expired _
           (KeyError "token") eq_refl).
Defined.

(** X5.  What a failed refresh raises: the transport's exception when
    the request fails, the decoder's when the body is not JSON,
    [KeyError('token')] when the body is an object without [token], and
    [TypeError] when the body is JSON but not an object.  The HTTP status
    plays no part. *)
Theorem get_access_token_failure_kinds :
  forall (remote : list event -> request -> reply)
         (jwt_encode : jwt_header -> jwt_payload -> string)
         (uuid4 : list event -> string) (utcnow : float -> datetime)
         (w : world),
    token_is_fresh w = false ->
    let rq := login_request (transport_token_of jwt_encode uuid4 utcnow w) in
    let outcome := reply_outcome (remote (trace w) rq) in
    let raised := fst (_get_access_token remote jwt_encode uuid4 utcnow w) in
    (forall e, outcome = NetFail e -> raised = Raise e)
    /\ (forall status e, outcome = Http status (Raise e) -> raised = Raise e)
    /\ (forall status d,
          outcome = Http status (Ok (PyDict d)) ->
          dict_get "token" d = None ->
          raised = Raise (KeyError "token"))
    /\ (forall status data,
          outcome = Http status (Ok data) ->
          is_dict data = false ->
          raised = Raise TypeError).
Proof.
  intros remote jwt_encode uuid4 utcnow w Hguard rq outcome raised.
  subst raised. rewrite (get_access_token_stale _ _ _ _ _ Hguard).
  cbv zeta. fold rq. fold outcome.
  repeat split.
  - intros e ->. reflexivity.
  - intros status e ->. reflexivity.
  - intros status d -> Hmissing. simpl. now rewrite Hmissing.
  - intros status data -> Hdata. destruct data; try reflexivity.
    discriminate Hdata.
Qed.

Lemma get_access_token_failure_kinds_witness :
  fst (_get_access_token DemoOps.remote_no_token Demo.jwt_encode Demo.uuid4
         Demo.utcnow Demo.w0)
  = Raise (KeyError "token").
Proof.
  destruct (get_access_token_failure_kinds DemoOps.remote_no_token
              Demo.jwt_encode Demo.uuid4 Demo.utcnow Demo.w0 eq_refl)
    as [_ [_ [Hmissing _]]].
  exact (Hmissing 401 _ eq_refl eq_refl).
Defined.



(* ================================================================== *)
(** * Room operations *)

Section RoomOperationFacts.

Variable remote : list event -> request -> reply.
Variable jwt_encode : jwt_header -> jwt_payload -> string.
Variable uuid4 : list event -> string.
Variable utcnow : float -> datetime.
Variable py_str : value -> string.

(** A request after a token was obtained, the binds spelled out. *)
Lemma http_after_token {A : Type} (rq : value -> request)
    (k : Z * result value -> M A) (w w1 : world) (token : value) :
  _get_access_token remote jwt_encode uuid4 utcnow w = (Ok token, w1) ->
  (let* t := _get_access_token remote jwt_encode uuid4 utcnow in
   let* response := http remote (rq t) in k response) w
  = let rp := remote (trace w1) (rq token) in
    let w2 := mkWorld (api w1) (PrimFloat.add (clock w1) (latency rp))
                (trace w1 ++ [ENet (rq token) rp]) in
    match reply_outcome rp with
    | NetFail e => (Raise e, w2)
    | Http status body => k (status, body) w2
    end.
Proof.
  intros Htoken. unfold bind at 1. rewrite Htoken.
  unfold bind, http. cbv zeta.
  destruct (reply_outcome (remote (trace w1) (rq token))); reflexivity.
Qed.

Lemma no_http_without_token {A : Type} (k : value -> M A)
    (w w1 : world) (e : exn) :
  _get_access_token remote jwt_encode uuid4 utcnow w = (Raise e, w1) ->
  (let* t := _get_access_token remote jwt_encode uuid4 utcnow in k t) w
  = (Raise e, w1).
Proof. intros Htoken. unfold bind. now rewrite Htoken. Qed.

End RoomOperationFacts.

(** X7.  [create_room] does not look at the HTTP status: once a token is
    at hand, whatever status the creation is answered with, the decoded
    body is returned as the room data, and a body that cannot be decoded
    raises the decoder's exception. *)
Theorem create_room_ignores_status :
  forall (remote : list event -> request -> reply)
         (jwt_encode : jwt_header -> jwt_payload -> string)
         (uuid4 : list event -> string) (utcnow : float -> datetime)
         (py_str : value -> string)
         (room_title : string) (w w1 : world) (token : value)
         (status : Z) (body : result value),
    _get_access_token remote jwt_encode uuid4 utcnow w = (Ok token, w1) ->
    reply_outcome (remote (trace w1) (create_request py_str token room_title))
    = Http status body ->
    fst (create_room remote jwt_encode uuid4 utcnow py_str room_title w)
    = body.
Proof.
  intros remote jwt_encode uuid4 utcnow py_str room_title w w1 token
         status body Htoken Hreply.
  unfold create_room.
  rewrite (http_after_token remote jwt_encode uuid4 utcnow
             (fun t => create_request py_str t room_title)
             (fun response => lift (snd response)) w w1 token Htoken).
  cbv zeta. rewrite Hreply. reflexivity.
Qed.

Lemma create_room_ignores_status_witness :
  fst (create_room DemoOps.remote_no_token Demo.jwt_encode Demo.uuid4
         Demo.utcnow Demo.py_str "Room #1" Demo.w_cached)
  = Ok (PyDict [("error", PyStr "denied")]).
Proof.
  exact (create_room_ignores_status DemoOps.remote_no_token Demo.jwt_encode
           Demo.uuid4 Demo.utcnow Demo.py_str "Room #1" Demo.w_cached
           Demo.w_cached (PyStr "access-0") 401 _ eq_refl eq_refl).
Defined.

(** X8.  When no token can be obtained, none of the four room operations
    sends its request: each raises the exception of the token exchange
    and leaves the world as the exchange left it. *)
Theorem room_operations_need_token :
  forall (remote : list event -> request -> reply)
         (jwt_encode : jwt_header -> jwt_payload -> string)
         (uuid4 : list event -> string) (utcnow : float -> datetime)
         (py_str : value -> string)
         (arg : string) (w w1 : world) (e : exn),
    _get_access_token remote jwt_encode uuid4 utcnow w = (Raise e, w1) ->
    create_room remote jwt_encode uuid4 utcnow py_str arg w = (Raise e, w1)
    /\ disable_transcription remote jwt_encode uuid4 utcnow py_str arg w
       = (Raise e, w1)
    /\ disable_room remote jwt_encode uuid4 utcnow py_str arg w
       = (Raise e, w1)
    /\ get_transcriptions remote jwt_encode uuid4 utcnow py_str arg w
       = (Raise e, w1).
Proof.
  intros remote jwt_encode uuid4 utcnow py_str arg w w1 e Htoken.
  repeat split;
    apply (no_http_without_token remote jwt_encode uuid4 utcnow _ w w1 e
             Htoken).
Qed.

Lemma room_operations_need_token_witness :
  fst (disable_room DemoOps.remote_no_token Demo.jwt_encode Demo.uuid4
         Demo.utcnow Demo.py_str "abc123" Demo.w0)
  = Raise (KeyError "token").
Proof.
  destruct (room_operations_need_token DemoOps.remote_no_token
              Demo.jwt_encode Demo.uuid4 Demo.utcnow Demo.py_str "abc123"
              Demo.w0 _ (KeyError "token") eq_refl) as [_ [_ [Hroom _]]].
  now rewrite Hroom.
Defined.

(** X9.  [disable_transcription] and [disable_room] report the status
    and nothing else: once a token is at hand, each returns [True] when
    its request is answered with status 204 and [False] for every other
    status, without reading the body (a body that is not JSON does not
    make them raise); only a failure of the transport raises. *)
Theorem disable_operations_report_204 :
  forall (remote : list event -> request -> reply)
         (jwt_encode : jwt_header -> jwt_payload -> string)
         (uuid4 : list event -> string) (utcnow : float -> datetime)
         (py_str : value -> string)
         (room_id : string) (w w1 : world) (token : value),
    _get_access_token remote jwt_encode uuid4 utcnow w = (Ok token, w1) ->
    let settings :=
      reply_outcome
        (remote (trace w1) (settings_request py_str token room_id)) in
    let disable :=
      reply_outcome
        (remote (trace w1) (disable_request py_str token room_id)) in
    (forall status body,
       settings = Http status body ->
       fst (disable_transcription remote jwt_encode uuid4 utcnow py_str
              room_id w) = Ok (status =? 204))
    /\ (forall e,
          settings = NetFail e ->
          fst (disable_transcription remote jwt_encode uuid4 utcnow py_str
                 room_id w) = Raise e)
    /\ (forall status body,
          disable = Http status body ->
          fst (disable_room remote jwt_encode uuid4 utcnow py_str room_id w)
          = Ok (status =? 204))
    /\ (forall e,
          disable = NetFail e ->
          fst (disable_room remote jwt_encode uuid4 utcnow py_str room_id w)
          = Raise e).
Proof.
  intros remote jwt_encode uuid4 utcnow py_str room_id w w1 token Htoken
         settings disable.
  unfold disable_transcription, disable_room.
  rewrite (http_after_token remote jwt_encode uuid4 utcnow
             (fun t => settings_request py_str t room_id)
             (fun response => ret (fst response =? 204)) w w1 token Htoken).
  rewrite (http_after_token remote jwt_encode uuid4 utcnow
             (fun t => disable_request py_str t room_id)
             (fun response => ret (fst response =? 204)) w w1 token Htoken).
  cbv zeta. fold settings. fold disable.
  repeat split.
  - intros status body ->. reflexivity.
  - intros e ->. reflexivity.
  - intros status body ->. reflexivity.
  - intros e ->. reflexivity.
Qed.

Lemma disable_operations_report_204_witness :
  fst (disable_room DemoOps.remote_no_content Demo.jwt_encode Demo.uuid4
         Demo.utcnow Demo.py_str "abc123" Demo.w0)
  = Ok true
  /\ fst (disable_transcription DemoOps.remote_no_token Demo.jwt_encode
            Demo.uuid4 Demo.utcnow Demo.py_str "abc123" Demo.w_cached)
     = Ok false.
Proof.
  split.
  - destruct (disable_operations_report_204 DemoOps.remote_no_content
                Demo.jwt_encode Demo.uuid4 Demo.utcnow Demo.py_str "abc123"
                Demo.w0 _ (PyStr "access-1") eq_refl)
      as [_ [_ [Hroom _]]].
    exact (Hroom 204 _ eq_refl).
  - destruct (disable_operations_report_204 DemoOps.remote_no_token
                Demo.jwt_encode Demo.uuid4 Demo.utcnow Demo.py_str "abc123"
                Demo.w_cached _ (PyStr "access-0") eq_refl)
      as [Hsettings _].
    exact (Hsettings 401 _ eq_refl).
Defined.

(* ================================================================== *)
(** * More on [create_rooms] *)

Lemma dict_get_In (k : string) (v : value) (d : dict) :
  NoDup (map fst d) -> (dict_get k d = Some v <-> In (k, v) d).
Proof.
  induction d as [ | [k' v'] rest IH]; simpl; intros Hnodup.
  - split; [discriminate | contradiction].
  - inversion Hnodup as [ | x l Hfresh Hrest]; subst.
    destruct (String.eqb_spec k k') as [-> | Hne].
    + split.
      * intros H. injection H as ->. now left.
      * intros [H | Hin].
        -- now injection H as ->.
        -- exfalso. apply Hfresh. apply in_map_iff. now exists (k', v).
    + rewrite (IH Hrest). split.
      * intros Hin. now right.
      * intros [H | Hin]; [ | exact Hin]. injection H as <- _.
        now contradiction Hne.
Qed.

Lemma In_rounds (k : string) (v : value) (rooms : list (string * value)) :
  In (OCreate (PyStr k) (Some v)) (flat_map round rooms) <-> In (k, v) rooms.
Proof.
  rewrite in_flat_map. split.
  - intros [[k' v'] [Hin [H | [H | []]]]]; [ | discriminate H].
    simpl in H. injection H as -> ->. exact Hin.
  - intros Hin. exists (k, v). split; [exact Hin | now left].
Qed.

(** Against a healthy service the loop finishes every round. *)
Lemma create_rooms_loop_done
    (remote : list event -> request -> reply)
    (jwt_encode : jwt_header -> jwt_payload -> string)
    (uuid4 : list event -> string) (utcnow : float -> datetime)
    (py_str : value -> string) (count : Z) (w : world) :
  remote_healthy remote ->
  exists (rooms : dict) (w1 : world) (tr1 : list event),
    create_rooms_loop remote jwt_encode uuid4 utcnow py_str
      (py_range count) [] w = (Ok rooms, w1)
    /\ trace w1 = (trace w ++ tr1)%list
    /\ observe tr1 = flat_map round rooms
    /\ map fst rooms = map room_label (seq 0 (Z.to_nat count)).
Proof.
  intros Hhealthy. unfold py_range.
  set (range := seq 0 (Z.to_nat count)).
  destruct (create_rooms_loop_healthy remote jwt_encode uuid4 utcnow py_str
              range Hhealthy [] w) as [rooms [w1 Hrun]].
  destruct (create_rooms_loop_trace remote jwt_encode uuid4 utcnow py_str
              range [] w) as [tr1 [done [Htr1 Hres]]].
  rewrite Hrun in Htr1, Hres. simpl in Htr1, Hres.
  destruct Hres as [Hobs [Hkeys Hrooms]].
  assert (Hdone : rooms = done).
  { rewrite Hrooms. apply (dict_set_all_fresh done []). simpl.
    rewrite Hkeys. apply room_labels_NoDup. }
  subst done. exists rooms, w1, tr1. repeat split; assumption.
Qed.

(** X10.  With a count of zero or less [create_rooms] sends nothing and
    does not sleep, but still opens the save file and writes the empty
    mapping over it; it returns the empty mapping, or raises what the
    write raised. *)
Theorem create_rooms_nothing_to_do :
  forall (remote : list event -> request -> reply)
         (fs_write : list event -> string -> dict -> option exn)
         (jwt_encode : jwt_header -> jwt_payload -> string)
         (uuid4 : list event -> string) (utcnow : float -> datetime)
         (py_str : value -> string)
         (count : Z) (save_path : string) (w : world),
    count <= 0 ->
    create_rooms remote fs_write jwt_encode uuid4 utcnow py_str
      count save_path w
    = (match fs_write (trace w) save_path [] with
       | Some e => Raise e
       | None => Ok []
       end,
       mkWorld (api w) (clock w)
         (trace w
          ++ [EWrite save_path [] (fs_write (trace w) save_path [])])).
Proof.
  intros remote fs_write jwt_encode uuid4 utcnow py_str count save_path w
         Hcount.
  unfold create_rooms, py_range.
  replace (Z.to_nat count) with 0%nat by lia.
  simpl. unfold bind, ret, write_json. simpl.
  destruct (fs_write (trace w) save_path []); reflexivity.
Qed.

Lemma create_rooms_nothing_to_do_witness :
  create_rooms Demo.remote Demo.fs_write Demo.jwt_encode Demo.uuid4
    Demo.utcnow Demo.py_str (-2) "jazz_rooms.json" Demo.w0
  = (Ok [],
     mkWorld Demo.fresh_api 1000%float [EWrite "jazz_rooms.json" [] None]).
Proof.
  refine (create_rooms_nothing_to_do Demo.remote Demo.fs_write
            Demo.jwt_encode Demo.uuid4 Demo.utcnow Demo.py_str (-2)
            "jazz_rooms.json" Demo.w0 _).
  discriminate.
Defined.

(** X11.  When the save file cannot be written, [create_rooms] has by
    then created every room: against a service that answers every
    request it sends all the creation requests and sleeps after each,
    and only then raises the exception of the write; the mapping is
    lost to the caller though the rooms exist. *)
Theorem create_rooms_write_failure :
  forall (remote : list event -> request -> reply)
         (fs_write : list event -> string -> dict -> option exn)
         (jwt_encode : jwt_header -> jwt_payload -> string)
         (uuid4 : list event -> string) (utcnow : float -> datetime)
         (py_str : value -> string)
         (count : Z) (save_path : string) (w : world) (e : exn),
    remote_healthy remote ->
    (forall tr path content, fs_write tr path content = Some e) ->
    exists (rooms : dict) (w' : world) (tr' : list event),
      create_rooms remote fs_write jwt_encode uuid4 utcnow py_str
        count save_path w = (Raise e, w')
      /\ trace w' = (trace w ++ tr')%list
      /\ map fst rooms = map room_label (seq 0 (Z.to_nat count))
      /\ observe tr'
         = (flat_map round rooms ++ [OWrite save_path rooms (Some e)])%list.
Proof.
  intros remote fs_write jwt_encode uuid4 utcnow py_str count save_path w e
         Hhealthy Hfs.
  destruct (create_rooms_loop_done remote jwt_encode uuid4 utcnow py_str
              count w Hhealthy) as [rooms [w1 [tr1 [Hrun [Htr [Hobs Hkeys]]]]]].
  exists rooms,
    (mkWorld (api w1) (clock w1)
       (trace w1 ++ [EWrite save_path rooms (Some e)])),
    (tr1 ++ [EWrite save_path rooms (Some e)])%list.
  split.
  { unfold create_rooms, bind at 1. rewrite Hrun.
    unfold bind, write_json. rewrite Hfs. reflexivity. }
  split; [simpl; now rewrite Htr, <- app_assoc | ].
  split; [exact Hkeys | ].
  rewrite observe_app, Hobs. reflexivity.
Qed.

Lemma create_rooms_write_failure_witness :
  exists (rooms : dict) (w' : world) (tr' : list event),
    create_rooms Demo.remote DemoOps.fs_full Demo.jwt_encode Demo.uuid4
      Demo.utcnow Demo.py_str 2 "jazz_rooms.json" Demo.w0
    = (Raise (External "OSError"), w')
    /\ trace w' = (trace Demo.w0 ++ tr')%list
    /\ map fst rooms = ["Room #1"; "Room #2"]
    /\ observe tr'
       = (flat_map round rooms
          ++ [OWrite "jazz_rooms.json" rooms (Some (External "OSError"))])%list.
Proof.
  exact (create_rooms_write_failure Demo.remote DemoOps.fs_full
           Demo.jwt_encode Demo.uuid4 Demo.utcnow Demo.py_str 2
           "jazz_rooms.json" Demo.w0 (External "OSError")
           demo_remote_healthy (fun _ _ _ => eq_refl)).
Defined.

(** X12.  Looking a label up in the mapping [create_rooms] returns gives
    the room URL that the creation request with that title was answered
    with, and nothing else is in the mapping: a key has a value exactly
    when the trace shows a creation titled with the key and answered
    with that value. *)
Theorem create_rooms_lookup :
  forall (remote : list event -> request -> reply)
         (fs_write : list event -> string -> dict -> option exn)
         (jwt_encode : jwt_header -> jwt_payload -> string)
         (uuid4 : list event -> string) (utcnow : float -> datetime)
         (py_str : value -> string)
         (count : Z) (save_path : string) (w : world),
    remote_healthy remote ->
    (forall tr path content, fs_write tr path content = None) ->
    exists (rooms : dict) (w' : world) (tr' : list event),
      create_rooms remote fs_write jwt_encode uuid4 utcnow py_str
        count save_path w = (Ok rooms, w')
      /\ trace w' = (trace w ++ tr')%list
      /\ forall (label : string) (url : value),
           dict_get label rooms = Some url
           <-> In (OCreate (PyStr label) (Some url)) (observe tr').
Proof.
  intros remote fs_write jwt_encode uuid4 utcnow py_str count save_path w
         Hhealthy Hfs.
  destruct (create_rooms_loop_done remote jwt_encode uuid4 utcnow py_str
              count w Hhealthy) as [rooms [w1 [tr1 [Hrun [Htr [Hobs Hkeys]]]]]].
  exists rooms,
    (mkWorld (api w1) (clock w1) (trace w1 ++ [EWrite save_path rooms None])),
    (tr1 ++ [EWrite save_path rooms None])%list.
  split.
  { unfold create_rooms, bind at 1. rewrite Hrun.
    unfold bind, write_json, ret. rewrite Hfs. reflexivity. }
  split; [simpl; now rewrite Htr, <- app_assoc | ].
  intros label url.
  rewrite dict_get_In by (rewrite Hkeys; apply room_labels_NoDup).
  rewrite observe_app, Hobs, in_app_iff, In_rounds. simpl.
  split; [now left | ].
  intros [Hin | [Habs | []]]; [exact Hin | discriminate Habs].
Qed.

Lemma create_rooms_lookup_witness :
  exists (rooms : dict) (w' : world) (tr' : list event),
    create_rooms Demo.remote Demo.fs_write Demo.jwt_encode Demo.uuid4
      Demo.utcnow Demo.py_str 2 "jazz_rooms.json" Demo.w0 = (Ok rooms, w')
    /\ trace w' = (trace Demo.w0 ++ tr')%list
    /\ forall (label : string) (url : value),
         dict_get label rooms = Some url
         <-> In (OCreate (PyStr label) (Some url)) (observe tr').
Proof.
  exact (create_rooms_lookup Demo.remote Demo.fs_write Demo.jwt_encode
           Demo.uuid4 Demo.utcnow Demo.py_str 2 "jazz_rooms.json" Demo.w0
           demo_remote_healthy (fun _ _ _ => eq_refl)).
Defined.

(* ================================================================== *)
(** * More on [parse_transcriptions] *)

(** Entries off the allow-list at the front are passed over. *)
Lemma filter_loop_skip (fromisoformat : string -> option datetime)
    (known_names : list string) (st en : option datetime)
    (before rest : list value) :
  Forall (fun t => is_dict t = true /\ allowed known_names t = false)
         before ->
  forall filtered,
    filter_loop fromisoformat known_names st en (before ++ rest) filtered
    = filter_loop fromisoformat known_names st en rest filtered.
Proof.
  induction 1 as [ | t before' [Hdict Hout] _ IH]; intros acc.
  - reflexivity.
  - apply is_dict_inv in Hdict. destruct Hdict as [d ->].
    simpl app. simpl filter_loop. rewrite py_in_allowed, Hout. simpl.
    apply IH.
Qed.

Lemma filter_andb {A : Type} (f g : A -> bool) (l : list A) :
  filter (fun x => f x && g x) l = filter g (filter f l).
Proof.
  induction l as [ | x l IH]; simpl; [reflexivity | ].
  destruct (f x); simpl; [ | exact IH].
  destruct (g x); now rewrite IH.
Qed.

Lemma py_in_same_members (k1 k2 : list string) (x : value) :
  same_members k1 k2 -> py_in x k1 = py_in x k2.
Proof.
  intros Hsame. destruct x; try reflexivity. simpl.
  destruct (existsb (String.eqb s) k1) eqn:H1;
    destruct (existsb (String.eqb s) k2) eqn:H2; try reflexivity.
  - apply existsb_eqb_In, Hsame, existsb_eqb_In in H1. congruence.
  - apply existsb_eqb_In, Hsame, existsb_eqb_In in H2. congruence.
Qed.

Lemma filter_loop_same_members (fromisoformat : string -> option datetime)
    (k1 k2 : list string) (ts : list value) :
  same_members k1 k2 ->
  forall st en filtered,
    filter_loop fromisoformat k1 st en ts filtered
    = filter_loop fromisoformat k2 st en ts filtered.
Proof.
  intros Hsame.
  induction ts as [ | t rest IH]; intros st en acc; [reflexivity | ].
  simpl.
  destruct (py_get t "participantName" PyNone) as [name | e];
    simpl; [ | reflexivity].
  rewrite (py_in_same_members k1 k2 name Hsame).
  destruct (negb (py_in name k2)); [apply IH | ].
  destruct (is_some st || is_some en); [ | apply IH].
  destruct (py_getitem t "createdAt") as [raw | e]; simpl; [ | reflexivity].
  destruct (py_replace_Z raw) as [iso | e]; simpl; [ | reflexivity].
  destruct (fromisoformat iso) as [created | ]; simpl; [ | reflexivity].
  destruct (bound_to_utc st) as [[st' su] | e]; simpl; [ | reflexivity].
  destruct (bound_to_utc en) as [[en' eu] | e]; simpl; [ | reflexivity].
  destruct (match su with Some s => dt_lt created s | None => Ok false end)
    as [[ | ] | e]; simpl; [apply IH | | reflexivity].
  destruct (match eu with Some s => dt_gt created s | None => Ok false end)
    as [[ | ] | e]; simpl; [apply IH | apply IH | reflexivity].
Qed.

(** X13.  A payload that decodes to anything but an object (a list, a
    string, a number, [null]) makes [parse_transcriptions] raise
    [AttributeError], for every allow-list and window. *)
Theorem parse_transcriptions_not_an_object :
  forall (json_loads : string -> result value)
         (fromisoformat : string -> option datetime)
         (py_str : value -> string)
         (raw : string) (data : value) (known_names : list string)
         (start_time end_time : option datetime),
    json_loads raw = Ok data ->
    is_dict data = false ->
    parse_transcriptions json_loads fromisoformat py_str raw known_names
      start_time end_time = Raise AttributeError.
Proof.
  intros json_loads fromisoformat py_str raw data known_names st en
         Hloads Hdata.
  apply (parse_of_raise json_loads fromisoformat py_str raw data known_names
           st en AttributeError Hloads).
  destruct data; try reflexivity. discriminate Hdata.
Qed.

Lemma parse_transcriptions_not_an_object_witness :
  parse_transcriptions (Demo.json_loads (PyList [Demo.payload_ab]))
    Demo.fromisoformat Demo.py_str "[payload_ab]" ["Alice"] None None
  = Raise AttributeError.
Proof.
  exact (parse_transcriptions_not_an_object
           (Demo.json_loads (PyList [Demo.payload_ab])) Demo.fromisoformat
           Demo.py_str "[payload_ab]" _ ["Alice"] None None eq_refl eq_refl).
Defined.

(** X14.  The output depends on the allow-list only through its
    members: two allow-lists with the same members, in any order and
    with any repetitions, give the same result (text, logged call or
    exception) on every payload and window. *)
Theorem parse_transcriptions_allow_list_as_set :
  forall (json_loads : string -> result value)
         (fromisoformat : string -> option datetime)
         (py_str : value -> string)
         (raw : string) (k1 k2 : list string)
         (start_time end_time : option datetime),
    same_members k1 k2 ->
    parse_transcriptions_run json_loads fromisoformat py_str raw k1
      start_time end_time
    = parse_transcriptions_run json_loads fromisoformat py_str raw k2
        start_time end_time.
Proof.
  intros json_loads fromisoformat py_str raw k1 k2 st en Hsame.
  unfold parse_transcriptions_run.
  destruct (json_loads raw) as [data | e]; simpl; [ | reflexivity].
  unfold parse_decoded, surviving.
  destruct (py_get data "transcriptions" (PyList [])) as [tv | e];
    simpl; [ | reflexivity].
  destruct (py_iter tv) as [ts | e]; simpl; [ | reflexivity].
  now rewrite (filter_loop_same_members fromisoformat k1 k2 ts Hsame).
Qed.

Lemma parse_transcriptions_allow_list_as_set_witness :
  parse_transcriptions_run (Demo.json_loads Demo.payload_ab)
    Demo.fromisoformat Demo.py_str "payload_ab" ["Alice"; "Bob"] None None
  = parse_transcriptions_run (Demo.json_loads Demo.payload_ab)
      Demo.fromisoformat Demo.py_str "payload_ab" ["Bob"; "Alice"; "Bob"]
      None None.
Proof.
  apply (parse_transcriptions_allow_list_as_set
           (Demo.json_loads Demo.payload_ab) Demo.fromisoformat Demo.py_str
           "payload_ab" ["Alice"; "Bob"] ["Bob"; "Alice"; "Bob"] None None).
  intros s. simpl. tauto.
Defined.

(** X15.  When
    [parse_transcriptions] returns, the call it made to
    [log_transcription] carries the input string unchanged, the returned
    text, and as room id the payload's [roomId] when that counts as true
    and the string ["unknown"] when it is absent, [null], empty or
    zero. *)
Theorem parse_transcriptions_logged_call :
  forall (json_loads : string -> result value)
         (fromisoformat : string -> option datetime)
         (py_str : value -> string)
         (raw : string) (fields : dict) (known_names : list string)
         (start_time end_time : option datetime)
         (text : string) (call : log_call),
    json_loads raw = Ok (PyDict fields) ->
    parse_transcriptions_run json_loads fromisoformat py_str raw known_names
      start_time end_time = Ok (text, call) ->
    log_raw call = raw
    /\ log_parsed call = text
    /\ log_room_id call
       = match dict_get "roomId" fields with
         | Some v => if py_truthy v then v else PyStr "unknown"
         | None => PyStr "unknown"
         end.
Proof.
  intros json_loads fromisoformat py_str raw fields known_names st en
         text call Hloads Hrun.
  unfold parse_transcriptions_run in Hrun. rewrite Hloads in Hrun.
  simpl rbind in Hrun. unfold parse_decoded in Hrun.
  destruct (surviving fromisoformat (PyDict fields) known_names st en)
    as [filtered | e]; [ | discriminate Hrun].
  simpl rbind in Hrun.
  destruct (dialog_loop py_str filtered []) as [dialog_lines | e];
    [ | discriminate Hrun].
  simpl in Hrun.
  destruct (dict_get "roomId" fields) as [v | ]; simpl in Hrun.
  - destruct (py_truthy v); simpl in Hrun; injection Hrun as <- <-;
      repeat split.
  - injection Hrun as <- <-. repeat split.
Qed.

Lemma parse_transcriptions_logged_call_witness :
  log_room_id
    (mkLogCall (PyStr "unknown") "payload_ab" "Alice: hi")
  = PyStr "unknown"
  /\ parse_transcriptions_run (Demo.json_loads Demo.payload_ab)
       Demo.fromisoformat Demo.py_str "payload_ab" ["Alice"] None None
     = Ok ("Alice: hi", mkLogCall (PyStr "unknown") "payload_ab" "Alice: hi").
Proof.
  split; [ | reflexivity].
  exact (proj2 (proj2 (parse_transcriptions_logged_call
           (Demo.json_loads Demo.payload_ab) Demo.fromisoformat Demo.py_str
           "payload_ab" _ ["Alice"] None None "Alice: hi" _
           eq_refl eq_refl))).
Defined.

(** The first loop at an allow-listed entry with a readable timestamp,
    the binds up to the conversion of the bounds spelled out. *)
Lemma filter_step_readable (fromisoformat : string -> option datetime)
    (known_names : list string) (d : dict) (s : string) (dt : datetime)
    (rest : list value) (st en : option datetime) (acc : list value) :
  allowed known_names (PyDict d) = true ->
  dict_get "createdAt" d = Some (PyStr s) ->
  fromisoformat (replace_Z s) = Some dt ->
  is_some st || is_some en = true ->
  filter_loop fromisoformat known_names st en (PyDict d :: rest) acc
  = (let? (st', su) := bound_to_utc st in
     let? (en', eu) := bound_to_utc en in
     let? too_early :=
       match su with Some b => dt_lt dt b | None => Ok false end in
     if too_early then filter_loop fromisoformat known_names st' en' rest acc
     else
       let? too_late :=
         match eu with Some b => dt_gt dt b | None => Ok false end in
       if too_late
       then filter_loop fromisoformat known_names st' en' rest acc
       else filter_loop fromisoformat known_names st' en' rest
              (acc ++ [PyDict d])).
Proof.
  intros Hallowed Hraw Hiso Hwindow.
  simpl filter_loop. rewrite py_in_allowed, Hallowed, Hwindow, Hraw.
  simpl. rewrite Hiso. reflexivity.
Qed.

(** X16.  With a window, an allow-listed entry whose [createdAt] parses
    to a timestamp without an offset makes the call raise [TypeError]
    (the comparison of a naive with an aware datetime), when every entry
    before it is off the allow-list and the bounds can be converted. *)
Theorem parse_transcriptions_naive_created_at :
  forall (json_loads : string -> result value)
         (fromisoformat : string -> option datetime)
         (py_str : value -> string)
         (raw : string) (fields : dict) (before after : list value)
         (d : dict) (s : string) (dt : datetime)
         (known_names : list string) (start_time end_time : option datetime),
    json_loads raw = Ok (PyDict fields) ->
    dict_get "transcriptions" fields
    = Some (PyList (before ++ PyDict d :: after)) ->
    Forall (fun t => is_dict t = true /\ allowed known_names t = false)
           before ->
    allowed known_names (PyDict d) = true ->
    dict_get "createdAt" d = Some (PyStr s) ->
    fromisoformat (replace_Z s) = Some dt ->
    tzoffset dt = None ->
    is_some start_time || is_some end_time = true ->
    bound_ok start_time -> bound_ok end_time ->
    parse_transcriptions json_loads fromisoformat py_str raw known_names
      start_time end_time = Raise TypeError.
Proof.
  intros json_loads fromisoformat py_str raw fields before after d s dt
         known_names st en Hloads Hts Hbefore Hallowed Hraw Hiso Hnaive
         Hwindow Hst Hen.
  apply (parse_of_raise json_loads fromisoformat py_str raw (PyDict fields)
           known_names st en TypeError Hloads).
  unfold surviving. simpl. rewrite Hts. simpl.
  rewrite (filter_loop_skip fromisoformat known_names st en before _ Hbefore).
  rewrite (filter_step_readable fromisoformat known_names d s dt after st en
             [] Hallowed Hraw Hiso Hwindow).
  rewrite (bound_to_utc_ok st Hst), (bound_to_utc_ok en Hen).
  unfold dt_gt, dt_lt.
  destruct st as [b1 | ], en as [b2 | ]; simpl; rewrite ?Hnaive;
    try reflexivity.
  discriminate Hwindow.
Qed.

(** X17.  A start bound whose conversion to UTC leaves the years 1 to
    9999 (a naive bound in the first three hours of year 1, such as
    [datetime.min]) makes the call raise [OverflowError] as soon as an
    allow-listed entry with a parseable [createdAt] is reached. *)
Theorem parse_transcriptions_bound_overflow :
  forall (json_loads : string -> result value)
         (fromisoformat : string -> option datetime)
         (py_str : value -> string)
         (raw : string) (fields : dict) (before after : list value)
         (d : dict) (s : string) (dt : datetime)
         (known_names : list string) (b : datetime)
         (end_time : option datetime),
    json_loads raw = Ok (PyDict fields) ->
    dict_get "transcriptions" fields
    = Some (PyList (before ++ PyDict d :: after)) ->
    Forall (fun t => is_dict t = true /\ allowed known_names t = false)
           before ->
    allowed known_names (PyDict d) = true ->
    dict_get "createdAt" d = Some (PyStr s) ->
    fromisoformat (replace_Z s) = Some dt ->
    in_datetime_range (bound_instant b) = false ->
    parse_transcriptions json_loads fromisoformat py_str raw known_names
      (Some b) end_time = Raise OverflowError.
Proof.
  intros json_loads fromisoformat py_str raw fields before after d s dt
         known_names b en Hloads Hts Hbefore Hallowed Hraw Hiso Hrange.
  apply (parse_of_raise json_loads fromisoformat py_str raw (PyDict fields)
           known_names (Some b) en OverflowError Hloads).
  unfold surviving. simpl. rewrite Hts. simpl.
  rewrite (filter_loop_skip fromisoformat known_names (Some b) en before _
             Hbefore).
  rewrite (filter_step_readable fromisoformat known_names d s dt after
             (Some b) en [] Hallowed Hraw Hiso eq_refl).
  destruct b as [c [off | ]];
    unfold bound_to_utc, assume_msk, astimezone_utc, bound_instant in *;
    simpl in *; rewrite Hrange; reflexivity.
Qed.

(** X18.  A window only removes lines.  For a payload whose entries are
    objects and whose allow-listed entries carry a [createdAt] with an
    offset, the entries that survive with a window are those of the
    entries that survive without one whose instant lies in the window,
    in the same order. *)
Theorem parse_transcriptions_window_narrows :
  forall (fromisoformat : string -> option datetime)
         (fields : dict) (ts : list value) (known_names : list string)
         (start_time end_time : option datetime),
    transcriptions_of fields ts ->
    bound_ok start_time -> bound_ok end_time ->
    Forall (timed_entry fromisoformat known_names) ts ->
    exists unwindowed,
      surviving fromisoformat (PyDict fields) known_names None None
      = Ok unwindowed
      /\ surviving fromisoformat (PyDict fields) known_names start_time
           end_time
         = Ok (filter
                 (fun t =>
                    match created_instant fromisoformat t with
                    | Some c => in_window start_time end_time c
                    | None => false
                    end) unwindowed)
      /\ incl unwindowed ts.
Proof.
  intros fromisoformat fields ts known_names st en Hts Hst Hen Htimed.
  exists (filter (allowed known_names) ts).
  rewrite !(surviving_transcriptions fromisoformat fields ts known_names
              _ _ Hts).
  split.
  { rewrite filter_loop_no_window; [reflexivity | ].
    revert Htimed. apply Forall_impl. now intros t [Hdict _]. }
  split.
  { rewrite filter_loop_window by assumption. simpl.
    unfold kept. now rewrite filter_andb. }
  apply incl_filter.
Qed.

Lemma parse_transcriptions_naive_created_at_witness :
  parse_transcriptions (Demo.json_loads DemoOps.payload_naive)
    DemoOps.fromisoformat_naive Demo.py_str "payload_naive" ["Alice"]
    None (Some (Demo.at_naive 15 30))
  = Raise TypeError.
Proof.
  refine (parse_transcriptions_naive_created_at
            (Demo.json_loads DemoOps.payload_naive)
            DemoOps.fromisoformat_naive Demo.py_str "payload_naive" _
            [Demo.entry "Bob" "yo" "yesterday"] []
            [("participantName", PyStr "Alice"); ("text", PyStr "hi");
             ("createdAt", PyStr "2025-10-07T11:00:00")]
            "2025-10-07T11:00:00" (Demo.at_naive 11 0) ["Alice"]
            None (Some (Demo.at_naive 15 30))
            eq_refl eq_refl _ eq_refl eq_refl eq_refl eq_refl eq_refl I
            eq_refl).
  repeat constructor.
Defined.

Lemma parse_transcriptions_bound_overflow_witness :
  parse_transcriptions (Demo.json_loads Demo.payload_ab) Demo.fromisoformat
    Demo.py_str "payload_ab" ["Alice"] (Some DemoOps.datetime_min) None
  = Raise OverflowError.
Proof.
  refine (parse_transcriptions_bound_overflow
            (Demo.json_loads Demo.payload_ab) Demo.fromisoformat Demo.py_str
            "payload_ab" _ []
            [Demo.entry "Bob" "yo" "2025-10-07T12:00:00Z"]
            [("participantName", PyStr "Alice"); ("text", PyStr "hi");
             ("createdAt", PyStr "2025-10-07T11:00:00Z")]
            "2025-10-07T11:00:00Z" (Demo.at_utc 11 0) ["Alice"]
            DemoOps.datetime_min None
            eq_refl eq_refl _ eq_refl eq_refl eq_refl eq_refl).
  constructor.
Defined.

Lemma parse_transcriptions_window_narrows_witness :
  exists unwindowed,
    surviving Demo.fromisoformat Demo.payload_hours ["Alice"] None None
    = Ok unwindowed
    /\ surviving Demo.fromisoformat Demo.payload_hours ["Alice"]
         (Some (Demo.at_naive 14 30)) None
       = Ok (filter
               (fun t =>
                  match created_instant Demo.fromisoformat t with
                  | Some c => in_window (Some (Demo.at_naive 14 30)) None c
                  | None => false
                  end) unwindowed)
    /\ incl unwindowed
         [Demo.entry "Alice" "two" "2025-10-07T11:00:00Z";
          Demo.entry "Alice" "three" "2025-10-07T12:00:00Z";
          Demo.entry "Alice" "four" "2025-10-07T13:00:00Z"].
Proof.
  apply (parse_transcriptions_window_narrows Demo.fromisoformat
           [("roomId", PyStr "abc123");
            ("transcriptions",
             PyList [Demo.entry "Alice" "two" "2025-10-07T11:00:00Z";
                     Demo.entry "Alice" "three" "2025-10-07T12:00:00Z";
                     Demo.entry "Alice" "four" "2025-10-07T13:00:00Z"])]
           _ ["Alice"] (Some (Demo.at_naive 14 30)) None).
  - left. reflexivity.
  - reflexivity.
  - exact I.
  - repeat constructor; discriminate.
Defined.

(* ================================================================== *)
(** * Logging and [get_room_transcription] *)

Lemma prefix_append (a b : string) : String.prefix a (a ++ b) = true.
Proof.
  induction a as [ | c a IH]; simpl.
  - now destruct b.
  - destruct (Ascii.ascii_dec c c) as [_ | Hne]; [exact IH | ].
    now contradiction Hne.
Qed.

(** X19.  [log_transcription] only ever appends: whatever it is given
    and whether or not the file can be opened, the previous contents of
    the log are a prefix of the new contents, and exactly one line is
    printed. *)
Theorem log_transcription_appends :
  forall (strftime : float -> string) (open_error : string -> option exn)
         (exn_str : exn -> string) (py_str : value -> string)
         (now : float) (room_id : value) (transcription_data : string)
         (parsed_text : option string) (lw : log_world),
    let lw' := log_transcription strftime open_error exn_str py_str now
                 room_id transcription_data parsed_text lw in
    String.prefix (log_file lw) (log_file lw') = true
    /\ exists line, printed lw' = (printed lw ++ [line])%list.
Proof.
  intros strftime open_error exn_str py_str now room_id data parsed lw lw'.
  subst lw'. unfold log_transcription.
  destruct (open_error (log_file lw)) as [e | ]; simpl.
  - split; [ | eauto].
    rewrite <- (append_empty_r (log_file lw)) at 2. apply prefix_append.
  - split; [apply prefix_append | eauto].
Qed.





(** X22.  When the transcriptions cannot be fetched (no token, a failed
    request, a body that is not JSON), [get_room_transcription] raises
    the exception of the fetch and logs nothing: the log file and the
    output are as they were. *)
Theorem get_room_transcription_failure_logs_nothing :
  forall (strftime : float -> string) (open_error : string -> option exn)
         (exn_str : exn -> string) (py_str : value -> string)
         (json_dumps : value -> string)
         (remote : list event -> request -> reply)
         (jwt_encode : jwt_header -> jwt_payload -> string)
         (uuid4 : list event -> string) (utcnow : float -> datetime)
         (room_url : string) (w w' : world) (lw : log_world) (e : exn),
    get_transcriptions remote jwt_encode uuid4 utcnow py_str
      (room_id_of_url room_url) w = (Raise e, w') ->
    get_room_transcription strftime open_error exn_str py_str json_dumps
      remote jwt_encode uuid4 utcnow room_url w lw
    = (Raise e, w', lw).
Proof.
  intros strftime open_error exn_str py_str json_dumps remote jwt_encode
         uuid4 utcnow room_url w w' lw e Hfetch.
  unfold get_room_transcription. now rewrite Hfetch.
Qed.

Lemma get_room_transcription_failure_logs_nothing_witness :
  snd (get_room_transcription DemoOps.strftime DemoOps.open_ok
         DemoOps.exn_str Demo.py_str DemoOps.json_dumps
         DemoOps.remote_no_content Demo.jwt_encode Demo.uuid4 Demo.utcnow
         "https://salutejazz.ru/abc123?psw=z" Demo.w0 DemoOps.lw0)
  = DemoOps.lw0.
Proof.
  rewrite (get_room_transcription_failure_logs_nothing DemoOps.strftime
             DemoOps.open_ok DemoOps.exn_str Demo.py_str DemoOps.json_dumps
             DemoOps.remote_no_content Demo.jwt_encode Demo.uuid4
             Demo.utcnow "https://salutejazz.ru/abc123?psw=z" Demo.w0 _
             DemoOps.lw0 (External "ContentTypeError") eq_refl).
  reflexivity.
Defined.
